(** * The parsl [File] type: URL components, remoteness and path resolution

    A shallow embedding of [parsl/data_provider/files.py].  The class
    [File] keeps the url it was built from, the components that
    [urllib.parse.urlparse] finds in it, the basename of the path, and an
    attribute [local_path] that a staging provider may add later.  Its
    methods [is_remote] and [filepath] dispatch on the scheme.

    Python strings are modelled by [string]; a character stands for the
    code point of the same number.  Exceptions are modelled by a result
    type, the [logging] calls by a log that [__str__] threads. *)

From Stdlib Require Import String Ascii List ZArith Bool Lia.
Import ListNotations.

Local Open Scope string_scope.
Local Open Scope Z_scope.

(** ** Exceptions *)

(** The exception classes the code can raise, each with its message. *)
Inductive exn : Type :=
| TypeError (msg : string)
| ValueError (msg : string)
| Exception (msg : string).

Inductive result (A : Type) : Type :=
| Ok (a : A)
| Raise (e : exn).

Arguments Ok {A} a.
Arguments Raise {A} e.

Definition bind {A B : Type} (r : result A) (k : A -> result B) : result B :=
  match r with
  | Ok a => k a
  | Raise e => Raise e
  end.

Notation "x <- r ;; k" := (bind r (fun x => k))
  (at level 61, r at next level, right associativity).
Notation "' p <- r ;; k" := (bind r (fun x => let p := x in k))
  (at level 61, p pattern, r at next level, right associativity).

(** ** The methods of Python's [str] that the code uses *)

Module Str.

Definition len (s : string) : Z := Z.of_nat (String.length s).

Fixpoint take (n : nat) (s : string) : string :=
  match n, s with
  | S n', String a r => String a (take n' r)
  | _, _ => EmptyString
  end.

Fixpoint drop (n : nat) (s : string) : string :=
  match n, s with
  | S n', String _ r => drop n' r
  | _, _ => s
  end.

(** An index of a slice or of [find]: negative ones count from the
    end, and all are clipped to [0 .. n]. *)
Definition norm_index (n i : Z) : Z :=
  if i <? 0 then Z.max 0 (n + i) else Z.min i n.

(** [s[lo:hi]] *)
Definition slice (s : string) (lo hi : Z) : string :=
  let a := norm_index (len s) lo in
  let b := norm_index (len s) hi in
  take (Z.to_nat (b - a)) (drop (Z.to_nat a) s).

(** [s[lo:]] *)
Definition slice_from (s : string) (lo : Z) : string :=
  drop (Z.to_nat (norm_index (len s) lo)) s.

(** [s[:hi]] *)
Definition slice_to (s : string) (hi : Z) : string :=
  take (Z.to_nat (norm_index (len s) hi)) s.

(** [c in s], for a one-character [c] *)
Fixpoint contains (c : ascii) (s : string) : bool :=
  match s with
  | EmptyString => false
  | String a r => Ascii.eqb a c || contains c r
  end.

(** The first position at or after [start] that holds [c], counting
    the head of [s] as position [pos]; -1 when there is none. *)
Fixpoint find_at (c : ascii) (s : string) (pos start : Z) : Z :=
  match s with
  | EmptyString => -1
  | String a r =>
      if (start <=? pos) && Ascii.eqb a c then pos
      else find_at c r (pos + 1) start
  end.

(** [s.find(c, start)], for a one-character [c] *)
Definition find (c : ascii) (s : string) (start : Z) : Z :=
  find_at c s 0 (norm_index (len s) start).

(** The last position that holds [c], counting the head of [s] as
    position [pos]; -1 when there is none. *)
Fixpoint rfind_at (c : ascii) (s : string) (pos : Z) : Z :=
  match s with
  | EmptyString => -1
  | String a r =>
      let k := rfind_at c r (pos + 1) in
      if 0 <=? k then k else if Ascii.eqb a c then pos else -1
  end.

(** [s.rfind(c)], for a one-character [c] *)
Definition rfind (c : ascii) (s : string) : Z := rfind_at c s 0.

(** [s.split(c, 1)] when [c in s]: the two parts around the first [c] *)
Definition split1 (c : ascii) (s : string) : string * string :=
  let i := find c s 0 in (slice_to s i, slice_from s (i + 1)).

Definition lower_char (a : ascii) : ascii :=
  let n := N_of_ascii a in
  if (65 <=? n)%N && (n <=? 90)%N then ascii_of_N (n + 32) else a.

(** [s.lower()] on the letters A to Z, the only ones the callers of
    this model pass through it *)
Fixpoint lower (s : string) : string :=
  match s with
  | EmptyString => EmptyString
  | String a r => String (lower_char a) (lower r)
  end.

(** [all(c in chars for c in s)] *)
Fixpoint all_in (chars s : string) : bool :=
  match s with
  | EmptyString => true
  | String a r => contains a chars && all_in chars r
  end.

(** [s in l], for a list of strings [l] *)
Definition mem (s : string) (l : list string) : bool :=
  existsb (String.eqb s) l.

End Str.

(** ** [urllib.parse.urlparse]

    The standard library's parser, as CPython 3.7 has it.  The cache of
    earlier results is left out: it changes no result.

    Later releases read some strings differently.  They strip leading
    C0 control characters and spaces from the url and delete tab,
    carriage return and line feed from it; they take a scheme only from
    a url that starts with an ASCII letter, and no longer keep a prefix
    such as [host:80] out of the scheme; and they refuse more netlocs: a
    bracketed host that is not an IPv6 or IPvFuture address, and a netloc
    that is not ASCII and turns into a delimiter under NFKC
    normalisation.  The properties below that depend on how a string is
    read are stated for strings that all these releases read alike. *)

Module UrlParse.
Import Str.

Record ParseResult : Type := mkParseResult {
  scheme : string;
  netloc : string;
  path : string;
  params : string;
  query : string;
  fragment : string
}.

Definition uses_params : list string :=
  [EmptyString; "ftp"; "hdl"; "prospero"; "http"; "imap"; "https"; "shttp";
   "rtsp"; "rtspu"; "sip"; "sips"; "mms"; "sftp"; "tel"].

Definition scheme_chars : string :=
  "abcdefghijklmnopqrstuvwxyzABCDEFGHIJKLMNOPQRSTUVWXYZ0123456789+-.".

Definition digits : string := "0123456789".

(** [_splitnetloc(url, start)]: the domain runs from [start] to the
    earliest of the delimiters [/], [?], [#] *)
Definition _splitnetloc (url : string) (start : Z) : string * string :=
  let step (delim : Z) (c : ascii) :=
    let wdelim := find c url start in
    if 0 <=? wdelim then Z.min delim wdelim else delim in
  let delim := fold_left step ["/"; "?"; "#"]%char (len url) in
  (slice url start delim, slice_from url delim).

(** [_splitparams(url)] *)
Definition _splitparams (url : string) : string * string :=
  if contains "/" url then
    let i := find ";" url (rfind "/" url) in
    if i <? 0 then (url, EmptyString)
    else (slice_to url i, slice_from url (i + 1))
  else
    let i := find ";" url 0 in
    (slice_to url i, slice_from url (i + 1)).

(** The netloc of a url [//[::1/x] or [//::1]/x] *)
Definition unbalanced_brackets (netloc : string) : bool :=
  (contains "[" netloc && negb (contains "]" netloc))
  || (contains "]" netloc && negb (contains "[" netloc)).

(** What [urlsplit] does once the scheme is off: netloc, fragment and
    query.  The code has this part twice, once on the path for [http]
    and once on the general one. *)
Definition split_rest (scheme url : string)
  : result (string * string * string * string * string) :=
  ' (netloc, url) <-
    (if String.eqb (slice_to url 2) "//" then
       let '(netloc, url) := _splitnetloc url 2 in
       if unbalanced_brackets netloc
       then Raise (ValueError "Invalid IPv6 URL")
       else Ok (netloc, url)
     else Ok (EmptyString, url)) ;;
  let '(url, fragment) :=
    if contains "#" url then split1 "#" url else (url, EmptyString) in
  let '(url, query) :=
    if contains "?" url then split1 "?" url else (url, EmptyString) in
  Ok (scheme, netloc, url, query, fragment).

(** [urlsplit(url)], with the default [scheme=''] and
    [allow_fragments=True] *)
Definition urlsplit (url : string)
  : result (string * string * string * string * string) :=
  let i := find ":" url 0 in
  if 0 <? i then
    if String.eqb (slice_to url i) "http" then
      split_rest (lower (slice_to url i)) (slice_from url (i + 1))
    else if all_in scheme_chars (slice_to url i) then
      let rest := slice_from url (i + 1) in
      if String.eqb rest EmptyString || negb (all_in digits rest)
      then split_rest (lower (slice_to url i)) rest
      else split_rest EmptyString url
    else split_rest EmptyString url
  else split_rest EmptyString url.

(** [urlparse(url)] *)
Definition urlparse (url : string) : result ParseResult :=
  ' (scheme, netloc, url, query, fragment) <- urlsplit url ;;
  let '(url, params) :=
    if mem scheme uses_params && contains ";" url
    then _splitparams url else (url, EmptyString) in
  Ok (mkParseResult scheme netloc url params query fragment).

End UrlParse.

(** ** [os.path.basename], on a POSIX system *)

Module OsPath.
Import Str.

Definition basename (p : string) : string :=
  let i := rfind "/" p + 1 in
  slice_from p i.

End OsPath.

(** ** Python values and the [typeguard] check *)

(** The values a caller can pass where the code expects a [str]. *)
#[warnings="-register-all"] Inductive pyobj : Type :=
| PyNone
| PyBool (b : bool)
| PyInt (n : Z)
| PyBytes (b : string)
| PyStr (s : string)
| PyList (l : list pyobj)
| PyPath (p : string).

Definition type_name (v : pyobj) : string :=
  match v with
  | PyNone => "NoneType"
  | PyBool _ => "bool"
  | PyInt _ => "int"
  | PyBytes _ => "bytes"
  | PyStr _ => "str"
  | PyList _ => "list"
  | PyPath _ => "pathlib.PosixPath"
  end.

(** [isinstance(v, str)] *)
Definition isinstance_str (v : pyobj) : bool :=
  match v with
  | PyStr _ => true
  | _ => false
  end.

Definition dquote : string := String (ascii_of_nat 34) EmptyString.

(** What [@typeguard.typechecked] does at the call with an argument
    annotated [str]: the value goes through when it is a [str], and a
    [TypeError] is raised otherwise. *)
Definition check_argument_str (argname : string) (v : pyobj) : result string :=
  match v with
  | PyStr s => Ok s
  | _ =>
      Raise (TypeError ("type of argument " ++ dquote ++ argname ++ dquote
                        ++ " must be str; got " ++ type_name v ++ " instead"))
  end.

(** ** The log of the module's [logger] *)

(** The messages handed to [logger.debug], in the order of the calls.
    Whether the logger emits them is a matter of its level, which this
    module does not set. *)
Definition Log : Type := list string.

(** A computation that may raise and may write to the log. *)
Definition Logged (A : Type) : Type := Log -> result A * Log.

Definition lift {A : Type} (r : result A) : Logged A := fun log => (r, log).

Definition debug (msg : string) : Logged unit :=
  fun log => (Ok tt, (log ++ [msg])%list).

Definition lbind {A B : Type} (c : Logged A) (k : A -> Logged B) : Logged B :=
  fun log =>
    match c log with
    | (Ok a, log') => k a log'
    | (Raise e, log') => (Raise e, log')
    end.

Notation "x <~ c ;; k" := (lbind c (fun x => k))
  (at level 61, c at next level, right associativity).

(** ** The class [File] *)

Module File.
Import Str.

(** The attributes of an instance.  [local_path] is [None] as long as
    the instance has no attribute of that name. *)
Record t : Type := mk {
  url : string;
  scheme : string;
  netloc : string;
  path : string;
  filename : string;
  local_path : option string
}.

Definition __init__ (url : pyobj) : result t :=
  url <- check_argument_str "url" url ;;
  parsed_url <- UrlParse.urlparse url ;;
  Ok {| url := url;
        scheme := if negb (String.eqb (UrlParse.scheme parsed_url) EmptyString)
                  then UrlParse.scheme parsed_url else "file";
        netloc := UrlParse.netloc parsed_url;
        path := UrlParse.path parsed_url;
        filename := OsPath.basename (UrlParse.path parsed_url);
        local_path := None |}.

Definition is_remote (self : t) : result bool :=
  if mem (scheme self) ["ftp"; "http"; "https"; "globus"] then Ok true
  else if mem (scheme self) ["file"] then Ok false
  else Raise (Exception ("Cannot determine if unknown file scheme "
                         ++ scheme self ++ " is remote")).

Definition filepath (self : t) : result string :=
  match local_path self with
  | Some p => Ok p
  | None =>
      if mem (scheme self) ["ftp"; "http"; "https"; "globus"]
      then Ok (filename self)
      else if mem (scheme self) ["file"] then Ok (path self)
      else Raise (Exception ("Cannot return filepath for unknown scheme "
                             ++ scheme self))
  end.

Definition __str__ (self : t) : Logged string :=
  p <~ lift (filepath self) ;;
  _ <~ debug ("File with URI " ++ url self
              ++ " providing string repr: " ++ p) ;;
  lift (filepath self).

Definition __repr__ (self : t) : Logged string := __str__ self.

Definition __fspath__ (self : t) : result string := filepath self.

(** Modelled from the spec: the write of the override by the staging
    actor, which is not part of [files.py].  It gives the instance the
    attribute [local_path] and touches nothing else. *)
Definition set_local_path (self : t) (p : string) : t :=
  {| url := url self;
     scheme := scheme self;
     netloc := netloc self;
     path := path self;
     filename := filename self;
     local_path := Some p |}.

End File.

(** The schemes that [is_remote] and [filepath] take for remote. *)
Definition remote_schemes : list string := ["ftp"; "http"; "https"; "globus"].

(** The instance that construction from [u] gives when [urlparse] finds
    the components [p] in it. *)
Definition constructed (u : string) (p : UrlParse.ParseResult) : File.t :=
  File.mk u
    (if String.eqb (UrlParse.scheme p) EmptyString
     then "file" else UrlParse.scheme p)
    (UrlParse.netloc p) (UrlParse.path p)
    (OsPath.basename (UrlParse.path p)) None.

(** The characters that later releases of the parser strip from the
    front of a url: [_WHATWG_C0_CONTROL_OR_SPACE]. *)
Definition is_c0_control_or_space (a : ascii) : bool :=
  (N_of_ascii a <=? 32)%N.

Definition starts_blank (s : string) : bool :=
  match s with
  | String a _ => is_c0_control_or_space a
  | EmptyString => false
  end.

(** Whether [s] holds one of the characters that later releases delete
    from a url: tab, carriage return and line feed,
    [_UNSAFE_URL_BYTES_TO_REMOVE]. *)
Definition has_unsafe_bytes (s : string) : bool :=
  Str.contains (ascii_of_nat 9) s
  || Str.contains (ascii_of_nat 13) s
  || Str.contains (ascii_of_nat 10) s.

(** [a.isascii() and a.isalpha()] *)
Definition is_ascii_letter (a : ascii) : bool :=
  let n := N_of_ascii a in
  ((65 <=? n) && (n <=? 90) || (97 <=? n) && (n <=? 122))%N.

Definition starts_with_letter (s : string) : bool :=
  match s with
  | String a _ => is_ascii_letter a
  | EmptyString => false
  end.

(** [s.isascii()] *)
Fixpoint is_ascii (s : string) : bool :=
  match s with
  | EmptyString => true
  | String a r => (N_of_ascii a <? 128)%N && is_ascii r
  end.

(** [x] is a piece of [s]: some characters of [s] in a row. *)
Definition part_of (x s : string) : Prop :=
  exists a b : string, s = a ++ x ++ b.

(** * Properties *)

(** ** Facts about the string functions *)

Section StrFacts.
Import Str.

Lemma mem_In (s : string) (l : list string) : mem s l = true <-> In s l.
Proof.
  unfold mem. rewrite existsb_exists. split.
  - intros [x [Hin Heq]]. apply String.eqb_eq in Heq. now subst.
  - intros Hin. exists s. split; [assumption | apply String.eqb_refl].
Qed.

Lemma mem_not_In (s : string) (l : list string) : mem s l = false <-> ~ In s l.
Proof.
  rewrite <- mem_In. destruct (mem s l); split; congruence.
Qed.

Lemma contains_take (c : ascii) (n : nat) (s : string) :
  contains c s = false -> contains c (take n s) = false.
Proof.
  revert s. induction n as [|n IH]; intros [|a r]; simpl; try reflexivity.
  intros H. apply orb_false_iff in H as [Ha Hr].
  rewrite Ha. simpl. now apply IH.
Qed.

Lemma contains_drop (c : ascii) (n : nat) (s : string) :
  contains c s = false -> contains c (drop n s) = false.
Proof.
  revert s. induction n as [|n IH]; intros [|a r]; simpl; try easy.
  intros H. apply orb_false_iff in H as [_ Hr]. now apply IH.
Qed.

Lemma contains_slice (c : ascii) (s : string) (lo hi : Z) :
  contains c s = false -> contains c (slice s lo hi) = false.
Proof.
  intros H. unfold slice. now apply contains_take, contains_drop.
Qed.

Lemma contains_slice_from (c : ascii) (s : string) (lo : Z) :
  contains c s = false -> contains c (slice_from s lo) = false.
Proof.
  intros H. unfold slice_from. now apply contains_drop.
Qed.

Lemma find_at_absent (c : ascii) (s : string) (pos start : Z) :
  contains c s = false -> find_at c s pos start = -1.
Proof.
  revert pos. induction s as [|a r IH]; intros pos; simpl; [reflexivity|].
  intros H. apply orb_false_iff in H as [Ha Hr].
  rewrite Ha, andb_false_r. now apply IH.
Qed.

Lemma drop_length (s : string) : drop (String.length s) s = EmptyString.
Proof.
  induction s as [|a r IH]; simpl; [reflexivity | exact IH].
Qed.

Lemma length_app (s1 s2 : string) :
  String.length (s1 ++ s2) = (String.length s1 + String.length s2)%nat.
Proof.
  induction s1 as [|a r IH]; simpl; [reflexivity | now rewrite IH].
Qed.

(** The last [c] of a string that ends in [c] is its last character. *)
Lemma rfind_at_last (c : ascii) (d : string) (pos : Z) :
  0 <= pos ->
  rfind_at c (d ++ String c EmptyString) pos = pos + len d.
Proof.
  revert pos. induction d as [|a r IH]; intros pos Hpos; simpl.
  - rewrite Ascii.eqb_refl. unfold len. simpl. lia.
  - rewrite IH by lia.
    assert (Hlen : 0 <= len r) by (unfold len; lia).
    destruct (0 <=? pos + 1 + len r) eqn:E.
    + unfold len in *. simpl String.length. lia.
    + apply Z.leb_gt in E. lia.
Qed.

End StrFacts.

(** [basename] of a path with a trailing slash is empty. *)
Lemma basename_trailing_slash (d : string) :
  OsPath.basename (d ++ "/") = EmptyString.
Proof.
  unfold OsPath.basename, Str.rfind.
  rewrite rfind_at_last by lia.
  unfold Str.slice_from, Str.norm_index, Str.len.
  rewrite length_app. simpl String.length.
  destruct (0 + Z.of_nat (String.length d) + 1 <? 0) eqn:E.
  - apply Z.ltb_lt in E. lia.
  - replace (Z.to_nat _) with (String.length (d ++ "/")).
    + apply drop_length.
    + rewrite length_app. simpl. lia.
Qed.

(** ** Construction *)

(** Construction from a string is [urlparse] followed by the assignment
    of the attributes. *)
Lemma init_str (u : string) :
  File.__init__ (PyStr u) =
  bind (UrlParse.urlparse u) (fun p => Ok (constructed u p)).
Proof.
  unfold File.__init__, constructed. simpl.
  destruct (UrlParse.urlparse u) as [p|e]; simpl; [|reflexivity].
  destruct (String.eqb (UrlParse.scheme p) EmptyString); reflexivity.
Qed.

Lemma init_str_inv (u : string) (f : File.t) :
  File.__init__ (PyStr u) = Ok f ->
  exists p, UrlParse.urlparse u = Ok p /\ f = constructed u p.
Proof.
  rewrite init_str. destruct (UrlParse.urlparse u) as [p|e]; simpl.
  - intros H. exists p. split; congruence.
  - discriminate.
Qed.

Lemma constructed_scheme_nonempty (u : string) (p : UrlParse.ParseResult) :
  File.scheme (constructed u p) <> EmptyString.
Proof.
  unfold constructed. simpl.
  destruct (String.eqb (UrlParse.scheme p) EmptyString) eqn:E.
  - discriminate.
  - now apply String.eqb_neq.
Qed.

(** ** Path resolution *)

(** C1: a reference constructed from a url resolves, before any override
    is bound, to the basename of the parsed path when the scheme of the
    url is ftp, http, https or globus, and to the whole parsed path when
    the scheme is file or the url has none. *)
Theorem filepath_before_override (u : string) (f : File.t) :
  File.__init__ (PyStr u) = Ok f ->
  exists p,
    UrlParse.urlparse u = Ok p /\
    File.local_path f = None /\
    (In (UrlParse.scheme p) remote_schemes ->
     File.filepath f = Ok (OsPath.basename (UrlParse.path p))) /\
    (UrlParse.scheme p = "file" \/ UrlParse.scheme p = EmptyString ->
     File.scheme f = "file" /\ File.filepath f = Ok (UrlParse.path p)).
Proof.
  intros Hinit. apply init_str_inv in Hinit as [p [Hp ->]].
  exists p. split; [exact Hp|]. split; [reflexivity|].
  unfold File.filepath, constructed; simpl File.local_path;
    simpl File.scheme; simpl File.filename; simpl File.path.
  split.
  - intros Hin.
    assert (Hne : String.eqb (UrlParse.scheme p) EmptyString = false).
    { apply String.eqb_neq. intros E. rewrite E in Hin.
      simpl in Hin. intuition discriminate. }
    rewrite Hne.
    apply mem_In in Hin. unfold remote_schemes in Hin. now rewrite Hin.
  - intros [E | E]; rewrite E; simpl; split; reflexivity.
Qed.

Lemma filepath_before_override_witness :
  File.__init__ (PyStr "https://example.org/data/set.csv")
  = Ok (File.mk "https://example.org/data/set.csv" "https" "example.org"
          "/data/set.csv" "set.csv" None)
  /\ exists p,
       UrlParse.urlparse "https://example.org/data/set.csv" = Ok p /\
       None = (None : option string) /\
       (In (UrlParse.scheme p) remote_schemes ->
        Ok "set.csv" = Ok (OsPath.basename (UrlParse.path p))) /\
       (UrlParse.scheme p = "file" \/ UrlParse.scheme p = EmptyString ->
        "https" = "file" /\ Ok "set.csv" = Ok (UrlParse.path p)).
Proof.
  split; [reflexivity|].
  apply (filepath_before_override "https://example.org/data/set.csv"
           (File.mk "https://example.org/data/set.csv" "https" "example.org"
              "/data/set.csv" "set.csv" None)).
  reflexivity.
Defined.

(** C2: once the override is bound to [P], [filepath] returns [P],
    whatever the scheme and the other attributes are: no branch on the
    scheme and no exception can be reached. *)
Theorem filepath_after_override (P : string) :
  (forall f : File.t, File.filepath (File.set_local_path f P) = Ok P) /\
  (forall url scheme netloc path filename : string,
      File.filepath (File.mk url scheme netloc path filename (Some P)) = Ok P).
Proof.
  split; intros; reflexivity.
Qed.

(** ** Classification *)

(** C3: [is_remote] returns [True] exactly for the schemes ftp, http,
    https and globus, returns [False] exactly for the scheme file, and
    depends on no attribute but the scheme. *)
Theorem is_remote_by_scheme (f : File.t) :
  (File.is_remote f = Ok true <-> In (File.scheme f) remote_schemes) /\
  (File.is_remote f = Ok false <-> File.scheme f = "file") /\
  (forall (url netloc path filename : string) (local_path : option string),
      File.is_remote
        (File.mk url (File.scheme f) netloc path filename local_path)
      = File.is_remote f).
Proof.
  unfold File.is_remote, remote_schemes.
  split; [|split].
  - rewrite <- mem_In.
    destruct (Str.mem (File.scheme f) ["ftp"; "http"; "https"; "globus"]).
    + tauto.
    + destruct (Str.mem (File.scheme f) ["file"]); split; discriminate.
  - destruct (Str.mem (File.scheme f) ["ftp"; "http"; "https"; "globus"]) eqn:R.
    + split; [discriminate|]. intros E. rewrite E in R. discriminate.
    + destruct (Str.mem (File.scheme f) ["file"]) eqn:L.
      * split; [intros _ | reflexivity].
        apply mem_In in L. simpl in L. intuition congruence.
      * split; [discriminate|]. intros E. rewrite E in L. discriminate.
  - intros. reflexivity.
Qed.

(** C4: when the scheme is neither file nor one of ftp, http, https and
    globus, [is_remote] raises an exception whose message names the
    scheme, and so does [filepath] as long as no override is bound.  Both
    are functions of the instance: they change nothing. *)
Theorem unknown_scheme_raises
  (url scheme netloc path filename : string) (local_path : option string) :
  ~ In scheme remote_schemes ->
  scheme <> "file" ->
  File.is_remote (File.mk url scheme netloc path filename local_path)
  = Raise (Exception ("Cannot determine if unknown file scheme "
                      ++ scheme ++ " is remote"))
  /\
  File.filepath (File.mk url scheme netloc path filename None)
  = Raise (Exception ("Cannot return filepath for unknown scheme " ++ scheme)).
Proof.
  intros Hremote Hfile.
  apply mem_not_In in Hremote. unfold remote_schemes in Hremote.
  assert (Hlocal : Str.mem scheme ["file"] = false).
  { apply mem_not_In. simpl. intuition congruence. }
  unfold File.is_remote, File.filepath. simpl.
  simpl in Hremote, Hlocal. rewrite Hremote, Hlocal. split; reflexivity.
Qed.

Lemma unknown_scheme_raises_witness :
  File.__init__ (PyStr "sftp://host/path")
  = Ok (File.mk "sftp://host/path" "sftp" "host" "/path" "path" None)
  /\ File.is_remote (File.mk "sftp://host/path" "sftp" "host" "/path" "path" None)
     = Raise (Exception "Cannot determine if unknown file scheme sftp is remote")
  /\ File.filepath (File.mk "sftp://host/path" "sftp" "host" "/path" "path" None)
     = Raise (Exception "Cannot return filepath for unknown scheme sftp").
Proof.
  split; [reflexivity|].
  apply (unknown_scheme_raises "sftp://host/path" "sftp" "host" "/path" "path" None).
  - unfold remote_schemes. simpl. intuition discriminate.
  - discriminate.
Defined.

(** ** When [urlparse] raises *)

Section UrlParseFacts.
Import Str UrlParse.

Local Ltac split_pairs :=
  repeat match goal with
         | |- context [let '(_, _) := ?x in _] => destruct x
         end.

(** The only exception of [urlsplit] is the one for a bracket without
    its partner in the netloc. *)
Lemma split_rest_cases (sch u : string) :
  (exists r, split_rest sch u = Ok r)
  \/ split_rest sch u = Raise (ValueError "Invalid IPv6 URL").
Proof.
  unfold split_rest.
  destruct (String.eqb (slice_to u 2) "//").
  - destruct (_splitnetloc u 2) as [n r].
    destruct (unbalanced_brackets n); simpl.
    + right. reflexivity.
    + left. split_pairs. eexists. reflexivity.
  - simpl. left. split_pairs. eexists. reflexivity.
Qed.

Lemma split_rest_no_brackets (sch u : string) :
  contains "[" u = false -> contains "]" u = false ->
  exists r, split_rest sch u = Ok r.
Proof.
  intros Hopen Hclose. unfold split_rest.
  destruct (String.eqb (slice_to u 2) "//").
  - unfold _splitnetloc.
    set (delim := fold_left _ _ _).
    unfold unbalanced_brackets.
    rewrite (contains_slice _ _ 2 delim Hopen).
    rewrite (contains_slice _ _ 2 delim Hclose).
    simpl. split_pairs. eexists. reflexivity.
  - simpl. split_pairs. eexists. reflexivity.
Qed.

Lemma urlsplit_cases (u : string) :
  (exists r, urlsplit u = Ok r)
  \/ urlsplit u = Raise (ValueError "Invalid IPv6 URL").
Proof.
  unfold urlsplit.
  repeat match goal with
         | |- context [if ?b then _ else _] => destruct b
         end; apply split_rest_cases.
Qed.

Lemma urlsplit_no_brackets (u : string) :
  contains "[" u = false -> contains "]" u = false ->
  exists r, urlsplit u = Ok r.
Proof.
  intros Hopen Hclose. unfold urlsplit.
  repeat match goal with
         | |- context [if ?b then _ else _] => destruct b
         end;
    apply split_rest_no_brackets;
    auto using contains_slice_from.
Qed.

Lemma urlparse_of_urlsplit (u : string) r :
  urlsplit u = Ok r -> exists p, urlparse u = Ok p.
Proof.
  intros H. unfold urlparse. rewrite H.
  destruct r as [[[[sch n] pth] q] fr]. simpl.
  split_pairs. eexists. reflexivity.
Qed.

Lemma urlparse_cases (u : string) :
  (exists p, urlparse u = Ok p)
  \/ urlparse u = Raise (ValueError "Invalid IPv6 URL").
Proof.
  destruct (urlsplit_cases u) as [[r H] | H].
  - left. exact (urlparse_of_urlsplit u r H).
  - right. unfold urlparse. rewrite H. reflexivity.
Qed.

Lemma urlparse_no_brackets (u : string) :
  contains "[" u = false -> contains "]" u = false ->
  exists p, urlparse u = Ok p.
Proof.
  intros Hopen Hclose.
  destruct (urlsplit_no_brackets u Hopen Hclose) as [r H].
  exact (urlparse_of_urlsplit u r H).
Qed.

(** A string without [:], [#], [?] and [;] that does not start with two
    slashes is all path. *)
Lemma urlparse_bare_path (s : string) :
  contains ":" s = false -> contains "#" s = false ->
  contains "?" s = false -> contains ";" s = false ->
  String.eqb (slice_to s 2) "//" = false ->
  urlparse s
  = Ok (mkParseResult EmptyString EmptyString s
          EmptyString EmptyString EmptyString).
Proof.
  intros Hcolon Hhash Hquery Hsemi Hslashes.
  unfold urlparse, urlsplit, find.
  rewrite (find_at_absent _ _ _ _ Hcolon). simpl.
  unfold split_rest. rewrite Hslashes. simpl.
  rewrite Hhash, Hquery. simpl. rewrite Hsemi. reflexivity.
Qed.

End UrlParseFacts.

(** X4: a string without [:], [#], [?] and [;] that starts neither with
    two slashes nor with a blank and holds no tab, carriage return or
    line feed is a local reference that resolves to the string itself. *)
Lemma bare_path_resolves_to_itself (s : string) :
  starts_blank s = false -> has_unsafe_bytes s = false ->
  Str.contains ":" s = false -> Str.contains "#" s = false ->
  Str.contains "?" s = false -> Str.contains ";" s = false ->
  String.eqb (Str.slice_to s 2) "//" = false ->
  File.__init__ (PyStr s)
  = Ok (File.mk s "file" EmptyString s (OsPath.basename s) None)
  /\ File.filepath (File.mk s "file" EmptyString s (OsPath.basename s) None)
     = Ok s.
Proof.
  intros _ _ Hcolon Hhash Hquery Hsemi Hslashes.
  rewrite init_str, (urlparse_bare_path s) by assumption.
  split; reflexivity.
Qed.

(** ** Construction, continued *)

(** C5, as amended: for every string that [urlparse] accepts,
    construction keeps the string as [url], takes scheme, netloc and path
    from the parse, with scheme file when the parse found none, so that
    the scheme is never empty, and takes the basename of the path as
    [filename]; no override is bound yet. *)
Theorem init_fields (u : string) (p : UrlParse.ParseResult) :
  UrlParse.urlparse u = Ok p ->
  exists f,
    File.__init__ (PyStr u) = Ok f /\
    File.url f = u /\
    File.scheme f = (if String.eqb (UrlParse.scheme p) EmptyString
                     then "file" else UrlParse.scheme p) /\
    File.scheme f <> EmptyString /\
    File.netloc f = UrlParse.netloc p /\
    File.path f = UrlParse.path p /\
    File.filename f = OsPath.basename (UrlParse.path p) /\
    File.local_path f = None.
Proof.
  intros Hp. exists (constructed u p).
  rewrite init_str, Hp. simpl.
  repeat split; try reflexivity.
  exact (constructed_scheme_nonempty u p).
Qed.

(** On a string that [urlparse] rejects, construction raises what
    [urlparse] raised. *)
Lemma init_propagates (u : string) (e : exn) :
  UrlParse.urlparse u = Raise e -> File.__init__ (PyStr u) = Raise e.
Proof.
  intros H. rewrite init_str, H. reflexivity.
Qed.

Lemma init_fields_witness :
  UrlParse.urlparse "file:///scratch/proj/input.txt"
  = Ok (UrlParse.mkParseResult "file" EmptyString "/scratch/proj/input.txt"
          EmptyString EmptyString EmptyString)
  /\ exists f,
       File.__init__ (PyStr "file:///scratch/proj/input.txt") = Ok f /\
       File.url f = "file:///scratch/proj/input.txt" /\
       File.scheme f = "file" /\
       File.scheme f <> EmptyString /\
       File.netloc f = EmptyString /\
       File.path f = "/scratch/proj/input.txt" /\
       File.filename f = OsPath.basename "/scratch/proj/input.txt" /\
       File.local_path f = None.
Proof.
  split; [reflexivity|].
  apply (init_fields "file:///scratch/proj/input.txt"
           (UrlParse.mkParseResult "file" EmptyString "/scratch/proj/input.txt"
              EmptyString EmptyString EmptyString)).
  reflexivity.
Defined.

(** C5 as stated fails on a string that [urlparse] rejects: from
    [//[::1] nothing is constructed, [urlparse] raises [ValueError]. *)
Lemma init_fields_fails_on_open_bracket :
  File.__init__ (PyStr "//[::1") = Raise (ValueError "Invalid IPv6 URL")
  /\ ~ exists f,
         File.__init__ (PyStr "//[::1") = Ok f /\
         File.url f = "//[::1" /\
         File.scheme f <> EmptyString /\
         File.filename f = OsPath.basename (File.path f).
Proof.
  split; [reflexivity|].
  intros [f [H _]]. vm_compute in H. discriminate.
Qed.

(** C8: the bare path [input.txt] gives scheme file, path and filename
    [input.txt], and comes back unchanged from [filepath]. *)
Theorem bare_path_round_trip :
  File.__init__ (PyStr "input.txt")
  = Ok (File.mk "input.txt" "file" EmptyString "input.txt" "input.txt" None)
  /\ File.filepath
       (File.mk "input.txt" "file" EmptyString "input.txt" "input.txt" None)
     = Ok "input.txt".
Proof.
  split; reflexivity.
Qed.

(** C9, as amended: a value that is not a [str] makes construction raise
    [TypeError] at the call; a [str] never does, and construction from it
    succeeds whenever [urlparse] accepts it. *)
Theorem init_type_check :
  (forall v : pyobj,
      isinstance_str v = false ->
      exists msg, File.__init__ v = Raise (TypeError msg))
  /\ (forall (s : string) (msg : string),
         File.__init__ (PyStr s) <> Raise (TypeError msg))
  /\ (forall (s : string) (p : UrlParse.ParseResult),
         UrlParse.urlparse s = Ok p ->
         exists f, File.__init__ (PyStr s) = Ok f).
Proof.
  repeat split.
  - intros v Hv. destruct v; try (eexists; reflexivity). discriminate.
  - intros s msg H. rewrite init_str in H.
    destruct (urlparse_cases s) as [[p Hp] | Hp]; rewrite Hp in H;
      discriminate.
  - intros s p Hp. exists (constructed s p).
    rewrite init_str, Hp. reflexivity.
Qed.

Lemma init_type_check_witness :
  (exists msg, File.__init__ (PyInt 3) = Raise (TypeError msg))
  /\ exists f, File.__init__ (PyStr "./files.py") = Ok f.
Proof.
  destruct init_type_check as [Hnot_str [_ Hstr]].
  split.
  - apply (Hnot_str (PyInt 3)). reflexivity.
  - apply (Hstr "./files.py"
             (UrlParse.mkParseResult EmptyString EmptyString "./files.py"
                EmptyString EmptyString EmptyString)).
    reflexivity.
Defined.

(** C9 as stated fails on a string that [urlparse] rejects: construction
    from the string [http://[::1/data.txt] does not succeed. *)
Lemma init_str_fails_on_open_bracket :
  isinstance_str (PyStr "http://[::1/data.txt") = true
  /\ File.__init__ (PyStr "http://[::1/data.txt")
     = Raise (ValueError "Invalid IPv6 URL")
  /\ ~ exists f, File.__init__ (PyStr "http://[::1/data.txt") = Ok f.
Proof.
  split; [reflexivity|]. split; [reflexivity|].
  intros [f H]. vm_compute in H. discriminate.
Qed.

(** C10: construction from the empty string gives scheme file and the
    empty string as path, filename and resolved path; and a reference
    with a remote scheme whose path ends in a slash has the empty
    filename and resolves to the empty string before any override. *)
Theorem degenerate_inputs :
  File.__init__ (PyStr EmptyString)
  = Ok (File.mk EmptyString "file" EmptyString EmptyString EmptyString None)
  /\ File.filepath
       (File.mk EmptyString "file" EmptyString EmptyString EmptyString None)
     = Ok EmptyString
  /\ File.__init__ (PyStr "http://host/dir/")
     = Ok (File.mk "http://host/dir/" "http" "host" "/dir/" EmptyString None)
  /\ (forall (u : string) (f : File.t) (d : string),
         File.__init__ (PyStr u) = Ok f ->
         In (File.scheme f) remote_schemes ->
         File.path f = d ++ "/" ->
         File.filename f = EmptyString /\ File.filepath f = Ok EmptyString).
Proof.
  split; [reflexivity|]. split; [reflexivity|]. split; [reflexivity|].
  intros u f d Hinit Hremote Hpath.
  apply init_str_inv in Hinit as [p [_ ->]].
  assert (Hname : File.filename (constructed u p) = EmptyString).
  { unfold constructed in *. simpl in *. rewrite Hpath.
    apply basename_trailing_slash. }
  split; [exact Hname|].
  unfold File.filepath. rewrite Hname.
  apply mem_In in Hremote. unfold remote_schemes in Hremote.
  simpl File.local_path. now rewrite Hremote.
Qed.

Lemma degenerate_inputs_witness :
  File.__init__ (PyStr "ftp://mirror/pub/")
  = Ok (File.mk "ftp://mirror/pub/" "ftp" "mirror" "/pub/" EmptyString None)
  /\ EmptyString = EmptyString
  /\ File.filepath
       (File.mk "ftp://mirror/pub/" "ftp" "mirror" "/pub/" EmptyString None)
     = Ok EmptyString.
Proof.
  split; [reflexivity|].
  destruct degenerate_inputs as [_ [_ [_ H]]].
  apply (H "ftp://mirror/pub/"
           (File.mk "ftp://mirror/pub/" "ftp" "mirror" "/pub/" EmptyString None)
           "/pub").
  - reflexivity.
  - unfold remote_schemes. simpl. auto.
  - reflexivity.
Defined.

(** ** The override and the conversions *)

(** C6: binding the override, once or any number of times, changes what
    [filepath] returns and leaves [is_remote], [url], [scheme],
    [netloc], [path] and [filename] as construction set them. *)
Theorem classification_stable (f : File.t) :
  (forall P : string,
      File.filepath (File.set_local_path f P) = Ok P) /\
  (forall bindings : list string,
      let f' := fold_left File.set_local_path bindings f in
      File.is_remote f' = File.is_remote f /\
      File.url f' = File.url f /\
      File.scheme f' = File.scheme f /\
      File.netloc f' = File.netloc f /\
      File.path f' = File.path f /\
      File.filename f' = File.filename f).
Proof.
  split; [reflexivity|].
  intros bindings. revert f.
  induction bindings as [|P rest IH]; intros f; simpl.
  - repeat split.
  - specialize (IH (File.set_local_path f P)). simpl in IH. exact IH.
Qed.

(** C7: [str], [repr] and [os.fspath] of a reference give what
    [filepath] gives, the same string or the same exception, whether or
    not the override is bound and whatever the log holds. *)
Theorem conversions_are_filepath (f : File.t) (log : Log) :
  fst (File.__str__ f log) = File.filepath f /\
  fst (File.__repr__ f log) = File.filepath f /\
  File.__fspath__ f = File.filepath f.
Proof.
  unfold File.__repr__, File.__fspath__, File.__str__, lbind, lift, debug.
  destruct (File.filepath f) as [p|e]; simpl; repeat split.
Qed.

(** ** The examples of the documentation *)

Example globus_reference :
  File.__init__ (PyStr "globus://ep1/~/data/input.txt")
  = Ok (File.mk "globus://ep1/~/data/input.txt" "globus" "ep1"
          "/~/data/input.txt" "input.txt" None)
  /\ (f <- File.__init__ (PyStr "globus://ep1/~/data/input.txt") ;;
      File.is_remote f) = Ok true
  /\ (f <- File.__init__ (PyStr "globus://ep1/~/data/input.txt") ;;
      File.filepath f) = Ok "input.txt"
  /\ (f <- File.__init__ (PyStr "globus://ep1/~/data/input.txt") ;;
      File.filepath (File.set_local_path f "/tmp/work/input.txt"))
     = Ok "/tmp/work/input.txt".
Proof.
  repeat split.
Qed.

Example file_reference :
  File.__init__ (PyStr "file:///scratch/proj101/input.txt")
  = Ok (File.mk "file:///scratch/proj101/input.txt" "file" EmptyString
          "/scratch/proj101/input.txt" "input.txt" None)
  /\ (f <- File.__init__ (PyStr "file:///scratch/proj101/input.txt") ;;
      File.is_remote f) = Ok false
  /\ (f <- File.__init__ (PyStr "file:///scratch/proj101/input.txt") ;;
      File.filepath f) = Ok "/scratch/proj101/input.txt".
Proof.
  repeat split.
Qed.

Example str_writes_to_the_log :
  File.__str__ (File.mk "input.txt" "file" EmptyString
                  "input.txt" "input.txt" None) []
  = (Ok "input.txt",
     ["File with URI input.txt providing string repr: input.txt"]).
Proof.
  reflexivity.
Qed.

(** * Further properties of the code *)

(** ** How [find], [rfind] and the slices cut a string *)

Section SearchFacts.
Import Str.

Lemma len_nonneg (s : string) : 0 <= len s.
Proof. unfold len. lia. Qed.

Lemma len_app (s1 s2 : string) : len (s1 ++ s2) = len s1 + len s2.
Proof. unfold len. rewrite length_app. lia. Qed.

Lemma len_String (a : ascii) (s : string) : len (String a s) = 1 + len s.
Proof. unfold len. simpl String.length. lia. Qed.

Lemma append_empty (s : string) : s ++ EmptyString = s.
Proof.
  induction s as [|a r IH]; simpl; [reflexivity | now rewrite IH].
Qed.

Lemma take_app (s1 s2 : string) : take (String.length s1) (s1 ++ s2) = s1.
Proof.
  induction s1 as [|a r IH]; simpl.
  - destruct s2; reflexivity.
  - now rewrite IH.
Qed.

Lemma drop_app (s1 s2 : string) : drop (String.length s1) (s1 ++ s2) = s2.
Proof.
  induction s1 as [|a r IH]; simpl; [destruct s2; reflexivity | exact IH].
Qed.

Lemma take_drop (n : nat) (s : string) : take n s ++ drop n s = s.
Proof.
  revert s. induction n as [|n IH]; intros [|a r]; simpl; try reflexivity.
  now rewrite IH.
Qed.

Lemma contains_app (c : ascii) (s1 s2 : string) :
  contains c (s1 ++ s2) = contains c s1 || contains c s2.
Proof.
  induction s1 as [|a r IH]; simpl; [reflexivity|].
  now rewrite IH, orb_assoc.
Qed.

Lemma norm_index_inside (n i : Z) : 0 <= i <= n -> norm_index n i = i.
Proof.
  intros H. unfold norm_index.
  destruct (i <? 0) eqn:E; [apply Z.ltb_lt in E|]; lia.
Qed.

Lemma slice_to_app (s1 s2 : string) : slice_to (s1 ++ s2) (len s1) = s1.
Proof.
  unfold slice_to. rewrite norm_index_inside.
  - unfold len. rewrite Nat2Z.id. apply take_app.
  - rewrite len_app. pose proof (len_nonneg s1). pose proof (len_nonneg s2). lia.
Qed.

Lemma slice_from_app (s1 s2 : string) : slice_from (s1 ++ s2) (len s1) = s2.
Proof.
  unfold slice_from. rewrite norm_index_inside.
  - unfold len. rewrite Nat2Z.id. apply drop_app.
  - rewrite len_app. pose proof (len_nonneg s1). pose proof (len_nonneg s2). lia.
Qed.

Lemma slice_from_app_cons (s1 : string) (c : ascii) (s2 : string) :
  slice_from (s1 ++ String c s2) (len s1 + 1) = s2.
Proof.
  unfold slice_from. rewrite norm_index_inside.
  - replace (Z.to_nat (len s1 + 1)) with (S (String.length s1))
      by (unfold len; lia).
    induction s1 as [|a r IH]; simpl; [destruct s2; reflexivity | exact IH].
  - rewrite len_app, len_String.
    pose proof (len_nonneg s1). pose proof (len_nonneg s2). lia.
Qed.

Lemma slice_from_0 (s : string) : slice_from s 0 = s.
Proof.
  unfold slice_from. rewrite norm_index_inside by (pose proof (len_nonneg s); lia).
  reflexivity.
Qed.

(** [rfind] either finds nothing, in a string without [c], or points at
    a [c] that no other [c] follows. *)
Lemma rfind_at_spec (c : ascii) (s : string) (pos : Z) :
  0 <= pos ->
  (rfind_at c s pos = -1 /\ contains c s = false)
  \/ (exists a b, s = a ++ String c b /\ rfind_at c s pos = pos + len a
                  /\ contains c b = false).
Proof.
  revert pos. induction s as [|x r IH]; intros pos Hpos; simpl.
  - left. split; reflexivity.
  - destruct (IH (pos + 1)) as [[Hk Hr] | [a [b [Hs [Hk Hb]]]]]; [lia| |].
    + rewrite Hk. simpl. destruct (Ascii.eqb x c) eqn:E.
      * right. apply Ascii.eqb_eq in E. subst x.
        exists EmptyString, r. repeat split; [unfold len; simpl; lia | exact Hr].
      * left. split; [reflexivity | exact Hr].
    + right. rewrite Hk.
      pose proof (len_nonneg a).
      replace (0 <=? pos + 1 + len a) with true by (symmetry; apply Z.leb_le; lia).
      exists (String x a), b. subst r. repeat split; [|exact Hb].
      rewrite len_String. lia.
Qed.

(** [find] from the head of the string on. *)
Lemma find_at_spec (c : ascii) (s : string) (pos start : Z) :
  start <= pos ->
  (find_at c s pos start = -1 /\ contains c s = false)
  \/ (exists a b, s = a ++ String c b /\ find_at c s pos start = pos + len a
                  /\ contains c a = false).
Proof.
  revert pos. induction s as [|x r IH]; intros pos Hpos; simpl.
  - left. split; reflexivity.
  - replace (start <=? pos) with true by (symmetry; apply Z.leb_le; lia).
    simpl. destruct (Ascii.eqb x c) eqn:E.
    + right. apply Ascii.eqb_eq in E. subst x.
      exists EmptyString, r. repeat split. unfold len. simpl. lia.
    + destruct (IH (pos + 1)) as [[Hk Hr] | [a [b [Hs [Hk Ha]]]]]; [lia| |].
      * left. split; assumption.
      * right. exists (String x a), b. subst r. repeat split.
        -- rewrite Hk, len_String. lia.
        -- simpl. now rewrite E.
Qed.

(** [find] from a later position on skips what lies before it. *)
Lemma find_at_skip (c : ascii) (n : nat) (s : string) (pos start : Z) :
  start = pos + Z.of_nat n ->
  find_at c s pos start = find_at c (drop n s) start start.
Proof.
  revert s pos. induction n as [|n IH]; intros s pos Hstart.
  - destruct s; simpl; [reflexivity|]. now replace start with pos by lia.
  - destruct s as [|x r]; simpl; [reflexivity|].
    replace (start <=? pos) with false by (symmetry; apply Z.leb_gt; lia).
    simpl. apply IH. lia.
Qed.

Lemma find_spec (c : ascii) (s : string) (start : Z) :
  0 <= start ->
  let n := Z.to_nat (Z.min start (len s)) in
  (find c s start = -1 /\ contains c (drop n s) = false)
  \/ (exists a b, drop n s = a ++ String c b
                  /\ find c s start = Z.of_nat n + len a
                  /\ contains c a = false).
Proof.
  intros Hstart n. unfold find.
  assert (Hnorm : norm_index (len s) start = Z.of_nat n).
  { unfold norm_index, n.
    destruct (start <? 0) eqn:E; [apply Z.ltb_lt in E; lia|].
    pose proof (len_nonneg s). lia. }
  rewrite Hnorm, (find_at_skip c n s 0 (Z.of_nat n)) by lia.
  apply find_at_spec. lia.
Qed.

Lemma find_0_spec (c : ascii) (s : string) :
  (find c s 0 = -1 /\ contains c s = false)
  \/ (exists a b, s = a ++ String c b /\ find c s 0 = len a
                  /\ contains c a = false).
Proof.
  destruct (find_spec c s 0) as [H | [a [b [Hs [Hk Ha]]]]]; [lia| |].
  - left. replace (Z.to_nat (Z.min 0 (len s))) with 0%nat in H
      by (pose proof (len_nonneg s); lia).
    exact H.
  - right. replace (Z.to_nat (Z.min 0 (len s))) with 0%nat in *
      by (pose proof (len_nonneg s); lia).
    exists a, b. simpl in *. repeat split; assumption.
Qed.

(** [split(c, 1)] cuts at the first [c]. *)
Lemma split1_spec (c : ascii) (s : string) :
  contains c s = true ->
  exists a b, s = a ++ String c b /\ contains c a = false
              /\ split1 c s = (a, b).
Proof.
  intros Hc. destruct (find_0_spec c s) as [[_ H] | [a [b [Hs [Hk Ha]]]]].
  - congruence.
  - exists a, b. repeat split; try assumption.
    unfold split1. rewrite Hk. subst s. rewrite slice_to_app.
    f_equal. apply slice_from_app_cons.
Qed.

End SearchFacts.

(** [basename] is what follows the last slash. *)
Lemma basename_spec (p : string) :
  (Str.contains "/" p = false /\ OsPath.basename p = p)
  \/ (exists d b, p = d ++ String "/" b /\ OsPath.basename p = b
                  /\ Str.contains "/" b = false).
Proof.
  unfold OsPath.basename, Str.rfind.
  destruct (rfind_at_spec "/" p 0) as [[Hk Hp] | [a [b [Hs [Hk Hb]]]]]; [lia| |].
  - left. rewrite Hk. simpl. split; [exact Hp | apply slice_from_0].
  - right. exists a, b. rewrite Hk. repeat split; try assumption.
    subst p. replace (0 + Str.len a + 1) with (Str.len a + 1) by lia.
    apply slice_from_app_cons.
Qed.

(** ** The shape of what [urlparse] returns *)

Section ParseShape.
Import Str UrlParse.

(** The cut that [urlsplit] makes at the first [#] and at the first
    [?], when there is one. *)
Lemma cut_spec (c : ascii) (x : string) :
  let r := if contains c x then split1 c x else (x, EmptyString) in
  contains c (fst r) = false /\ exists t, x = fst r ++ t.
Proof.
  intros r. subst r. destruct (contains c x) eqn:E.
  - destruct (split1_spec c x E) as [a [b [Hx [Ha Hs]]]].
    rewrite Hs. simpl. split; [exact Ha | now exists (String c b)].
  - simpl. split; [exact E|]. exists EmptyString. now rewrite append_empty.
Qed.

(** [urlsplit] hands the scheme it was given through, and leaves no
    [#] and no [?] in the path. *)
Lemma split_rest_shape (sch u : string) r :
  split_rest sch u = Ok r ->
  exists n pth q fr,
    r = (sch, n, pth, q, fr)
    /\ contains "#" pth = false /\ contains "?" pth = false.
Proof.
  unfold split_rest.
  set (first := if String.eqb (slice_to u 2) "//" then _ else _).
  destruct first as [[n u0]|e]; simpl; [|discriminate].
  pose proof (cut_spec "#" u0) as Hhash.
  destruct (if contains "#" u0 then split1 "#" u0 else (u0, EmptyString))
    as [u1 fr].
  pose proof (cut_spec "?" u1) as Hquery.
  destruct (if contains "?" u1 then split1 "?" u1 else (u1, EmptyString))
    as [u2 q].
  simpl in Hhash, Hquery.
  destruct Hhash as [Hhash _]. destruct Hquery as [Hquery [t Ht]].
  intros H. injection H as <-.
  exists n, u2, q, fr. repeat split; [|exact Hquery].
  rewrite Ht, contains_app in Hhash.
  now apply orb_false_iff in Hhash.
Qed.

(** The scheme that [urlsplit] finds is empty, or the lowered text
    before the first colon, all of scheme characters. *)
Lemma urlsplit_shape (u : string) :
  urlsplit u = split_rest EmptyString u
  \/ exists i,
       0 < i /\ i = find ":" u 0
       /\ all_in scheme_chars (slice_to u i) = true
       /\ urlsplit u = split_rest (lower (slice_to u i)) (slice_from u (i + 1)).
Proof.
  unfold urlsplit.
  destruct (0 <? find ":" u 0) eqn:Hi; [|now left].
  apply Z.ltb_lt in Hi.
  destruct (String.eqb (slice_to u (find ":" u 0)) "http") eqn:Hhttp.
  - right. exists (find ":" u 0). repeat split; try assumption.
    apply String.eqb_eq in Hhttp. rewrite Hhttp. reflexivity.
  - destruct (all_in scheme_chars (slice_to u (find ":" u 0))) eqn:Hall;
      [|now left].
    destruct (_ || _); [|now left].
    right. exists (find ":" u 0). repeat split; assumption.
Qed.

(** What [urlsplit] returns comes from [split_rest], on the whole url
    with no scheme or on what follows the colon with the lowered scheme. *)
Lemma urlsplit_ok_shape (u sch n pth q fr : string) :
  urlsplit u = Ok (sch, n, pth, q, fr) ->
  exists v,
    split_rest sch v = Ok (sch, n, pth, q, fr)
    /\ (sch = EmptyString /\ v = u
        \/ exists i,
             0 < i /\ i = find ":" u 0
             /\ all_in scheme_chars (slice_to u i) = true
             /\ sch = lower (slice_to u i) /\ v = slice_from u (i + 1)).
Proof.
  intros H.
  destruct (urlsplit_shape u) as [E | [i [Hi [Hfind [Hall E]]]]];
    rewrite E in H;
    destruct (split_rest_shape _ _ _ H) as [n' [pth' [q' [fr' [Er _]]]]];
    injection Er as -> -> -> -> ->.
  - exists u. split; [exact H | now left].
  - exists (slice_from u (i + 1)). split; [exact H|].
    right. exists i. repeat split; assumption.
Qed.

Lemma urlparse_shape (u : string) (p : ParseResult) :
  urlparse u = Ok p ->
  exists pth q fr,
    urlsplit u = Ok (scheme p, netloc p, pth, q, fr)
    /\ (mem (scheme p) uses_params && contains ";" pth = false
        /\ path p = pth
        \/ mem (scheme p) uses_params = true /\ contains ";" pth = true
           /\ path p = fst (_splitparams pth)).
Proof.
  unfold urlparse. intros H.
  destruct (urlsplit u) as [[[[[sch n] pth] q] fr]|e]; [|discriminate].
  unfold bind in H. cbv beta iota in H.
  destruct (mem sch uses_params && contains ";" pth) eqn:Hparams.
  - apply andb_true_iff in Hparams as [Hm Hc].
    destruct (_splitparams pth) as [pth' prm] eqn:Hsp.
    injection H as <-. simpl. exists pth, q, fr. split; [reflexivity|].
    right. rewrite Hsp. repeat split; assumption.
  - injection H as <-. simpl. exists pth, q, fr. split; [reflexivity|].
    left. now split.
Qed.

Lemma splitparams_prefix (pth : string) :
  exists t, pth = fst (_splitparams pth) ++ t.
Proof.
  unfold _splitparams.
  assert (Hto : forall i, exists t, pth = slice_to pth i ++ t).
  { intros i. unfold slice_to. eexists. symmetry. apply take_drop. }
  assert (Hid : exists t, pth = pth ++ t).
  { exists EmptyString. now rewrite append_empty. }
  destruct (contains "/" pth).
  - destruct (find ";" pth (rfind "/" pth) <? 0); simpl; [exact Hid | apply Hto].
  - simpl. apply Hto.
Qed.

(** The path of a parsed url holds neither [#] nor [?]. *)
Lemma urlparse_path_clean (u : string) (p : ParseResult) :
  urlparse u = Ok p ->
  contains "#" (path p) = false /\ contains "?" (path p) = false.
Proof.
  intros H.
  destruct (urlparse_shape u p H) as [pth [q [fr [Hsplit Hpath]]]].
  destruct (urlsplit_ok_shape _ _ _ _ _ _ Hsplit) as [v [Hr _]].
  destruct (split_rest_shape _ v _ Hr)
    as [n' [pth' [q' [fr' [E [Hhash Hquery]]]]]].
  injection E as <- <- <- <-.
  destruct Hpath as [[_ ->] | [_ [_ ->]]]; [now split|].
  destruct (splitparams_prefix pth) as [t Ht].
  rewrite Ht, contains_app in Hhash, Hquery.
  apply orb_false_iff in Hhash, Hquery. tauto.
Qed.

(** Without a colon there is no scheme. *)
Lemma scheme_of_no_colon (u : string) (p : ParseResult) :
  contains ":" u = false -> urlparse u = Ok p -> scheme p = EmptyString.
Proof.
  intros Hcolon Hp.
  destruct (urlparse_shape u p Hp) as [pth [q [fr [Hsplit _]]]].
  unfold urlsplit, find in Hsplit.
  rewrite (find_at_absent _ _ _ _ Hcolon) in Hsplit. simpl in Hsplit.
  destruct (split_rest_shape _ _ _ Hsplit) as [n [pth' [q' [fr' [E _]]]]].
  now injection E.
Qed.

End ParseShape.

(** ** What construction guarantees about the attributes *)

Lemma filename_of_init (u : string) (f : File.t) :
  File.__init__ (PyStr u) = Ok f ->
  Str.contains "/" (File.filename f) = false
  /\ exists d, File.path f = d ++ File.filename f
               /\ (d = EmptyString \/ exists d', d = d' ++ "/").
Proof.
  intros Hinit. apply init_str_inv in Hinit as [p [_ ->]].
  unfold constructed. simpl.
  destruct (basename_spec (UrlParse.path p))
    as [[Hno Hb] | [d [b [Hp [Hb Hno]]]]]; rewrite Hb.
  - split; [exact Hno|]. exists EmptyString. split; [reflexivity | now left].
  - split; [exact Hno|]. exists (d ++ "/"). split.
    + rewrite Hp at 1.
      clear. induction d as [|a r IH]; simpl; [reflexivity | now rewrite IH].
    + right. now exists d.
Qed.

(** X1: [filename] is the last segment of [path]: it holds no slash, and
    [path] is [filename] after nothing or after a prefix that ends in a
    slash. *)
Theorem filename_is_last_segment (u : string) (f : File.t) :
  File.__init__ (PyStr u) = Ok f ->
  Str.contains "/" (File.filename f) = false
  /\ exists d, File.path f = d ++ File.filename f
               /\ (d = EmptyString \/ exists d', d = d' ++ "/").
Proof.
  exact (filename_of_init u f).
Qed.

Lemma filename_is_last_segment_witness :
  File.__init__ (PyStr "ftp://mirror.example.org/pub/data/run7.tar.gz")
  = Ok (File.mk "ftp://mirror.example.org/pub/data/run7.tar.gz" "ftp"
          "mirror.example.org" "/pub/data/run7.tar.gz" "run7.tar.gz" None)
  /\ Str.contains "/" "run7.tar.gz" = false
  /\ exists d, "/pub/data/run7.tar.gz" = d ++ "run7.tar.gz"
               /\ (d = EmptyString \/ exists d', d = d' ++ "/").
Proof.
  split; [reflexivity|].
  apply (filename_is_last_segment
           "ftp://mirror.example.org/pub/data/run7.tar.gz"
           (File.mk "ftp://mirror.example.org/pub/data/run7.tar.gz" "ftp"
              "mirror.example.org" "/pub/data/run7.tar.gz" "run7.tar.gz" None)).
  reflexivity.
Defined.

(** X2: before staging, a reference with a remote scheme resolves to a
    bare name: what [filepath] returns holds no slash. *)
Theorem remote_resolves_to_bare_name (u : string) (f : File.t) (r : string) :
  File.__init__ (PyStr u) = Ok f ->
  File.is_remote f = Ok true ->
  File.filepath f = Ok r ->
  Str.contains "/" r = false.
Proof.
  intros Hinit Hremote Hpath.
  destruct (filename_of_init u f Hinit) as [Hno _].
  apply init_str_inv in Hinit as [p [_ ->]].
  unfold File.is_remote in Hremote. unfold File.filepath in Hpath.
  simpl File.local_path in Hpath.
  destruct (Str.mem (File.scheme (constructed u p))
              ["ftp"; "http"; "https"; "globus"]).
  - injection Hpath as <-. exact Hno.
  - destruct (Str.mem (File.scheme (constructed u p)) ["file"]); discriminate.
Qed.

Lemma remote_resolves_to_bare_name_witness :
  File.__init__ (PyStr "globus://ep1/~/data/input.txt")
  = Ok (File.mk "globus://ep1/~/data/input.txt" "globus" "ep1"
          "/~/data/input.txt" "input.txt" None)
  /\ Str.contains "/" "input.txt" = false.
Proof.
  split; [reflexivity|].
  apply (remote_resolves_to_bare_name "globus://ep1/~/data/input.txt"
           (File.mk "globus://ep1/~/data/input.txt" "globus" "ep1"
              "/~/data/input.txt" "input.txt" None) "input.txt");
    reflexivity.
Defined.

(** X3: with no override, [filepath] follows [is_remote]: it returns
    [filename] where [is_remote] says [True], [path] where it says
    [False], and raises where [is_remote] raises. *)
Theorem filepath_follows_is_remote
  (url scheme netloc path filename : string) :
  File.filepath (File.mk url scheme netloc path filename None)
  = match File.is_remote (File.mk url scheme netloc path filename None) with
    | Ok true => Ok filename
    | Ok false => Ok path
    | Raise _ =>
        Raise (Exception ("Cannot return filepath for unknown scheme " ++ scheme))
    end.
Proof.
  unfold File.filepath, File.is_remote. simpl File.local_path.
  simpl File.scheme. simpl File.filename. simpl File.path.
  destruct (Str.mem scheme ["ftp"; "http"; "https"; "globus"]);
    [reflexivity|].
  destruct (Str.mem scheme ["file"]); reflexivity.
Qed.

Lemma bare_path_resolves_to_itself_witness :
  File.__init__ (PyStr "./results/run 7/out.dat")
  = Ok (File.mk "./results/run 7/out.dat" "file" EmptyString
          "./results/run 7/out.dat"
          (OsPath.basename "./results/run 7/out.dat") None)
  /\ File.filepath
       (File.mk "./results/run 7/out.dat" "file" EmptyString
          "./results/run 7/out.dat"
          (OsPath.basename "./results/run 7/out.dat") None)
     = Ok "./results/run 7/out.dat".
Proof.
  apply (bare_path_resolves_to_itself "./results/run 7/out.dat");
    reflexivity.
Defined.

(** X5: what a fresh reference resolves to holds neither [#] nor [?]: the
    fragment and the query are cut off, so a string that holds one of the
    two never resolves to itself. *)
Theorem resolved_path_has_no_query_or_fragment
  (u : string) (f : File.t) (r : string) :
  File.__init__ (PyStr u) = Ok f ->
  File.filepath f = Ok r ->
  Str.contains "#" r = false /\ Str.contains "?" r = false
  /\ (Str.contains "#" u || Str.contains "?" u = true -> r <> u).
Proof.
  intros Hinit Hpath.
  destruct (filename_of_init u f Hinit) as [_ [d [Hd _]]].
  apply init_str_inv in Hinit as [p [Hp ->]].
  destruct (urlparse_path_clean u p Hp) as [Hhash Hquery].
  assert (Hr : Str.contains "#" r = false /\ Str.contains "?" r = false).
  { unfold File.filepath in Hpath. simpl File.local_path in Hpath.
    destruct (Str.mem _ ["ftp"; "http"; "https"; "globus"]).
    - injection Hpath as <-. simpl File.path in Hd.
      rewrite Hd, contains_app in Hhash, Hquery.
      apply orb_false_iff in Hhash, Hquery. tauto.
    - destruct (Str.mem _ ["file"]); [|discriminate].
      injection Hpath as <-. now split. }
  destruct Hr as [Hr1 Hr2]. repeat split; try assumption.
  intros Hu ->. rewrite Hr1, Hr2 in Hu. discriminate.
Qed.

Lemma resolved_path_has_no_query_or_fragment_witness :
  File.__init__ (PyStr "notes#1.txt")
  = Ok (File.mk "notes#1.txt" "file" EmptyString "notes" "notes" None)
  /\ Str.contains "#" "notes" = false /\ Str.contains "?" "notes" = false
  /\ (Str.contains "#" "notes#1.txt" || Str.contains "?" "notes#1.txt" = true
      -> "notes" <> "notes#1.txt").
Proof.
  split; [reflexivity|].
  apply (resolved_path_has_no_query_or_fragment "notes#1.txt"
           (File.mk "notes#1.txt" "file" EmptyString "notes" "notes" None)
           "notes");
    reflexivity.
Defined.

(** X6: a string without a colon is always a local reference: its scheme
    is file, [is_remote] says [False] and [filepath] returns [path]. *)
Theorem no_colon_is_local (u : string) (f : File.t) :
  Str.contains ":" u = false ->
  File.__init__ (PyStr u) = Ok f ->
  File.scheme f = "file"
  /\ File.is_remote f = Ok false
  /\ File.filepath f = Ok (File.path f).
Proof.
  intros Hcolon Hinit.
  apply init_str_inv in Hinit as [p [Hp ->]].
  pose proof (scheme_of_no_colon u p Hcolon Hp) as Hsch.
  unfold constructed, File.is_remote, File.filepath. simpl.
  rewrite Hsch. simpl. repeat split.
Qed.

Lemma no_colon_is_local_witness :
  Str.contains ":" "//archive/vol1/a.fits" = false
  /\ File.__init__ (PyStr "//archive/vol1/a.fits")
     = Ok (File.mk "//archive/vol1/a.fits" "file" "archive" "/vol1/a.fits"
             "a.fits" None)
  /\ "file" = "file"
  /\ File.is_remote (File.mk "//archive/vol1/a.fits" "file" "archive"
                       "/vol1/a.fits" "a.fits" None) = Ok false
  /\ File.filepath (File.mk "//archive/vol1/a.fits" "file" "archive"
                      "/vol1/a.fits" "a.fits" None) = Ok "/vol1/a.fits".
Proof.
  split; [reflexivity|]. split; [reflexivity|].
  apply (no_colon_is_local "//archive/vol1/a.fits"
           (File.mk "//archive/vol1/a.fits" "file" "archive" "/vol1/a.fits"
              "a.fits" None));
    reflexivity.
Defined.

(** ** The scheme *)

Section SchemeFacts.
Import Str UrlParse.

Lemma find_at_first (c : ascii) (a b : string) (pos start : Z) :
  contains c a = false -> start <= pos ->
  find_at c (a ++ String c b) pos start = pos + len a.
Proof.
  revert pos. induction a as [|x r IH]; intros pos Ha Hpos; simpl.
  - replace (start <=? pos) with true by (symmetry; apply Z.leb_le; lia).
    rewrite Ascii.eqb_refl. unfold len. simpl. lia.
  - simpl in Ha. apply orb_false_iff in Ha as [Hx Hr].
    rewrite Hx, andb_false_r, IH by (assumption || lia).
    rewrite len_String. lia.
Qed.

Lemma find_first (c : ascii) (a b : string) :
  contains c a = false -> find c (a ++ String c b) 0 = len a.
Proof.
  intros Ha. unfold find.
  rewrite norm_index_inside by (pose proof (len_nonneg (a ++ String c b)); lia).
  rewrite find_at_first by (assumption || lia). lia.
Qed.

Lemma all_in_excludes (chars s : string) (c : ascii) :
  all_in chars s = true -> contains c chars = false -> contains c s = false.
Proof.
  intros Hall Hc. induction s as [|x r IH]; simpl; [reflexivity|].
  simpl in Hall. apply andb_true_iff in Hall as [Hx Hr].
  rewrite (IH Hr), orb_false_r.
  destruct (Ascii.eqb x c) eqn:E; [|reflexivity].
  apply Ascii.eqb_eq in E. subst x. congruence.
Qed.

(** The characters a lowered scheme is made of. *)
Lemma lower_char_scheme (a : ascii) :
  contains a scheme_chars = true ->
  contains (lower_char a) "abcdefghijklmnopqrstuvwxyz0123456789+-." = true.
Proof.
  destruct a as [[] [] [] [] [] [] [] []]; vm_compute;
    intros H; first [reflexivity | discriminate H].
Qed.

Lemma lower_scheme (s : string) :
  all_in scheme_chars s = true ->
  all_in "abcdefghijklmnopqrstuvwxyz0123456789+-." (lower s) = true.
Proof.
  induction s as [|a r IH]; [reflexivity|].
  intros H. change (all_in scheme_chars (String a r))
    with (contains a scheme_chars && all_in scheme_chars r) in H.
  apply andb_true_iff in H as [Ha Hr].
  change (lower (String a r)) with (String (lower_char a) (lower r)).
  change (all_in ?cs (String ?x ?t)) with (contains x cs && all_in cs t).
  now rewrite (lower_char_scheme a Ha), (IH Hr).
Qed.

Lemma lower_nonempty (s : string) : s <> EmptyString -> lower s <> EmptyString.
Proof.
  destruct s; [congruence | discriminate].
Qed.

(** A url [sch:rest] whose [rest] is not a port number is split at the
    colon. *)
Lemma urlsplit_with_scheme (sch rest : string) :
  sch <> EmptyString ->
  all_in scheme_chars sch = true ->
  all_in digits rest = false ->
  urlsplit (sch ++ String ":" rest) = split_rest (lower sch) rest.
Proof.
  intros Hne Hall Hrest.
  assert (Hcolon : contains ":" sch = false)
    by (apply (all_in_excludes scheme_chars); [assumption | reflexivity]).
  unfold urlsplit. rewrite (find_first ":" sch rest Hcolon).
  assert (Hpos : (0 <? len sch) = true).
  { apply Z.ltb_lt. destruct sch; [congruence|].
    rewrite len_String. pose proof (len_nonneg sch). lia. }
  rewrite Hpos, slice_to_app, slice_from_app_cons, Hall, Hrest.
  simpl negb. rewrite orb_true_r.
  destruct (String.eqb sch "http"); reflexivity.
Qed.

End SchemeFacts.

(** X7: the scheme of a constructed reference is made of lower-case
    letters, digits, [+], [-] and [.] only: no upper-case letter gets
    into the comparisons of [is_remote] and [filepath]. *)
Theorem scheme_is_lower_case (u : string) (f : File.t) :
  File.__init__ (PyStr u) = Ok f ->
  Str.all_in "abcdefghijklmnopqrstuvwxyz0123456789+-." (File.scheme f) = true.
Proof.
  intros Hinit. apply init_str_inv in Hinit as [p [Hp ->]].
  destruct (urlparse_shape u p Hp) as [pth [q [fr [Hsplit _]]]].
  destruct (urlsplit_ok_shape _ _ _ _ _ _ Hsplit)
    as [v [_ [[Hsch _] | [i [_ [_ [Hall [Hsch _]]]]]]]];
    unfold constructed; simpl File.scheme.
  - rewrite Hsch. reflexivity.
  - destruct (String.eqb (UrlParse.scheme p) EmptyString); [reflexivity|].
    rewrite Hsch. now apply lower_scheme.
Qed.

Lemma scheme_is_lower_case_witness :
  File.__init__ (PyStr "HTTPS://Example.ORG/Data/Set.CSV")
  = Ok (File.mk "HTTPS://Example.ORG/Data/Set.CSV" "https" "Example.ORG"
          "/Data/Set.CSV" "Set.CSV" None)
  /\ Str.all_in "abcdefghijklmnopqrstuvwxyz0123456789+-." "https" = true.
Proof.
  split; [reflexivity|].
  apply (scheme_is_lower_case "HTTPS://Example.ORG/Data/Set.CSV"
           (File.mk "HTTPS://Example.ORG/Data/Set.CSV" "https" "Example.ORG"
              "/Data/Set.CSV" "Set.CSV" None)).
  reflexivity.
Defined.







(** ** The netloc *)

Section NetlocFacts.
Import Str UrlParse.

Lemma take_app_le (k : nat) (a t : string) :
  (k <= String.length a)%nat -> take k (a ++ t) = take k a.
Proof.
  revert a. induction k as [|k IH]; intros a Hk.
  - destruct a; simpl; [destruct t|]; reflexivity.
  - destruct a as [|x r]; simpl in *; [lia|]. rewrite IH by lia. reflexivity.
Qed.

(** Of two ways to write a string, the one that stops before the
    first [c] has the shorter head. *)
Lemma first_occurrence_far (c : ascii) (h x a b : string) :
  h ++ x = a ++ String c b -> contains c h = false ->
  (String.length h <= String.length a)%nat.
Proof.
  revert a. induction h as [|y hs IH]; intros a E Hc; simpl; [lia|].
  simpl in Hc. apply orb_false_iff in Hc as [Hy Hs].
  destruct a as [|z a']; simpl in E.
  - injection E as -> _. rewrite Ascii.eqb_refl in Hy. discriminate.
  - injection E as _ E. simpl. apply IH in E; [lia | assumption].
Qed.

Lemma find_after_two (c x y : ascii) (w : string) :
  find c (String x (String y w)) 2 = find_at c w 2 2.
Proof.
  unfold find. rewrite norm_index_inside.
  - reflexivity.
  - rewrite !len_String. pose proof (len_nonneg w). lia.
Qed.

Lemma slice_to_two (x y : ascii) (w : string) :
  slice_to (String x (String y w)) 2 = String x (String y EmptyString).
Proof.
  unfold slice_to. rewrite norm_index_inside.
  - simpl. destruct w; reflexivity.
  - rewrite !len_String. pose proof (len_nonneg w). lia.
Qed.

(** Where the netloc ends: at or before every delimiter that [find]
    sees from position 2 on. *)
Lemma splitnetloc_delim (v : string) :
  exists delim,
    _splitnetloc v 2 = (slice v 2 delim, slice_from v delim)
    /\ 0 <= delim <= len v
    /\ forall c, In c ["/"; "?"; "#"]%char ->
                 find c v 2 < 0 \/ delim <= find c v 2.
Proof.
  unfold _splitnetloc. cbn [fold_left].
  eexists. split; [reflexivity|].
  pose proof (len_nonneg v).
  destruct (0 <=? find "/" v 2) eqn:E1;
    destruct (0 <=? find "?" v 2) eqn:E2;
    destruct (0 <=? find "#" v 2) eqn:E3;
    repeat match goal with
           | H : (_ <=? _) = true |- _ => apply Z.leb_le in H
           | H : (_ <=? _) = false |- _ => apply Z.leb_gt in H
           end;
    (split; [lia|]);
    intros c [<- | [<- | [<- | []]]]; lia.
Qed.

(** The netloc holds none of the delimiters that end it. *)
Lemma splitnetloc_clean (v : string) (c : ascii) :
  In c ["/"; "?"; "#"]%char ->
  contains c (fst (_splitnetloc v 2)) = false.
Proof.
  intros Hc.
  destruct (splitnetloc_delim v) as [delim [E [Hdelim Hfind]]].
  rewrite E. simpl fst. specialize (Hfind c Hc).
  unfold slice.
  set (n := Z.to_nat (Z.min 2 (len v))).
  assert (Hn : norm_index (len v) 2 = Z.of_nat n).
  { unfold norm_index, n. simpl. pose proof (len_nonneg v). lia. }
  rewrite Hn, (norm_index_inside _ delim Hdelim), Nat2Z.id.
  destruct (find_spec c v 2) as [[_ Hno] | [a [b [Hv [Hk Ha]]]]]; [lia| |].
  - now apply contains_take.
  - fold n in Hv, Hk. rewrite Hv.
    pose proof (len_nonneg a).
    rewrite take_app_le by (unfold len in *; lia).
    now apply contains_take.
Qed.

Lemma split_rest_netloc (sch v s n pth q fr : string) :
  split_rest sch v = Ok (s, n, pth, q, fr) ->
  n = EmptyString \/ n = fst (_splitnetloc v 2).
Proof.
  unfold split_rest.
  destruct (String.eqb (slice_to v 2) "//").
  - destruct (_splitnetloc v 2) as [n0 u0]. simpl fst.
    destruct (unbalanced_brackets n0); simpl; [discriminate|].
    destruct (if contains "#" u0 then _ else _) as [u1 fr'].
    destruct (if contains "?" u1 then _ else _) as [u2 q'].
    intros H. injection H as _ <- _ _ _. now right.
  - simpl.
    destruct (if contains "#" v then _ else _) as [u1 fr'].
    destruct (if contains "?" u1 then _ else _) as [u2 q'].
    intros H. injection H as _ <- _ _ _. now left.
Qed.

(** The netloc of [//host] followed by nothing or by a path. *)
Lemma splitnetloc_composed (host pth : string) :
  contains "/" host = false ->
  contains "?" host = false ->
  contains "#" host = false ->
  pth = EmptyString \/ (exists t, pth = String "/" t) ->
  _splitnetloc (String "/" (String "/" (host ++ pth))) 2 = (host, pth).
Proof.
  intros Hslash Hquery Hhash Hpth.
  set (v := String "/" (String "/" (host ++ pth))).
  assert (Hlen : len v = 2 + len host + len pth).
  { unfold v. rewrite !len_String, len_app. lia. }
  pose proof (len_nonneg host) as Hh. pose proof (len_nonneg pth) as Hp.
  assert (Hcut : forall delim, delim = 2 + len host ->
             (slice v 2 delim, slice_from v delim) = (host, pth)).
  { intros delim ->. unfold slice, slice_from.
    rewrite !norm_index_inside by lia.
    replace (Z.to_nat (2 + len host - 2)) with (String.length host)
      by (unfold len; lia).
    replace (Z.to_nat (2 + len host)) with (S (S (String.length host)))
      by (unfold len; lia).
    unfold v. simpl drop. now rewrite drop_app, take_app. }
  assert (Hother : forall c, contains c host = false ->
             find c v 2 < 0 \/ 2 + len host <= find c v 2).
  { intros c Hc. unfold v. rewrite find_after_two.
    destruct (find_at_spec c (host ++ pth) 2 2) as [[-> _] | [a [b [E [-> _]]]]];
      [lia | left; lia |].
    right. apply first_occurrence_far in E; [|assumption].
    unfold len. lia. }
  unfold _splitnetloc. cbn [fold_left]. apply Hcut.
  destruct Hpth as [-> | [t ->]].
  - (* nothing follows: no delimiter is found *)
    assert (Hnone : forall c, contains c host = false -> find c v 2 = -1).
    { intros c Hc. unfold v. rewrite find_after_two.
      apply find_at_absent. now rewrite append_empty. }
    rewrite (Hnone "/"%char), (Hnone "?"%char), (Hnone "#"%char)
      by assumption.
    change (0 <=? -1) with false. cbv iota.
    rewrite Hlen. change (len EmptyString) with 0. lia.
  - (* a path follows: its slash is the first delimiter *)
    assert (Hfirst : find "/" v 2 = 2 + len host).
    { unfold v. rewrite find_after_two, find_at_first by (assumption || lia).
      reflexivity. }
    rewrite Hfirst.
    replace (0 <=? 2 + len host) with true
      by (symmetry; apply Z.leb_le; lia).
    destruct (Hother "?"%char Hquery) as [Hq | Hq];
      destruct (Hother "#"%char Hhash) as [Hf | Hf];
      destruct (0 <=? find "?" v 2) eqn:Eq;
      destruct (0 <=? find "#" v 2) eqn:Ef;
      repeat match goal with
             | H : (_ <=? _) = true |- _ => apply Z.leb_le in H
             | H : (_ <=? _) = false |- _ => apply Z.leb_gt in H
             end;
      lia.
Qed.

End NetlocFacts.

Lemma netloc_of_init (u : string) (f : File.t) :
  File.__init__ (PyStr u) = Ok f ->
  forall c, In c ["/"; "?"; "#"]%char ->
            Str.contains c (File.netloc f) = false.
Proof.
  intros Hinit c Hc. apply init_str_inv in Hinit as [p [Hp ->]].
  destruct (urlparse_shape u p Hp) as [pth [q [fr [Hsplit _]]]].
  destruct (urlsplit_ok_shape _ _ _ _ _ _ Hsplit) as [v [Hr _]].
  unfold constructed. simpl File.netloc.
  destruct (split_rest_netloc _ _ _ _ _ _ _ Hr) as [-> | ->].
  - reflexivity.
  - now apply splitnetloc_clean.
Qed.

(** X10: the netloc of a constructed reference holds none of [/], [?]
    and [#]: it ends where the path, the query or the fragment starts. *)
Theorem netloc_has_no_delimiter (u : string) (f : File.t) :
  File.__init__ (PyStr u) = Ok f ->
  Str.contains "/" (File.netloc f) = false
  /\ Str.contains "?" (File.netloc f) = false
  /\ Str.contains "#" (File.netloc f) = false.
Proof.
  intros Hinit. pose proof (netloc_of_init u f Hinit) as H.
  repeat split; apply H; simpl; auto.
Qed.

Lemma netloc_has_no_delimiter_witness :
  File.__init__ (PyStr "globus://go#ep1/~/data/input.txt")
  = Ok (File.mk "globus://go#ep1/~/data/input.txt" "globus" "go"
          EmptyString EmptyString None)
  /\ Str.contains "/" "go" = false
  /\ Str.contains "?" "go" = false
  /\ Str.contains "#" "go" = false.
Proof.
  split; [reflexivity|].
  apply (netloc_has_no_delimiter "globus://go#ep1/~/data/input.txt"
           (File.mk "globus://go#ep1/~/data/input.txt" "globus" "go"
              EmptyString EmptyString None)).
  reflexivity.
Defined.

Lemma init_composed (sch host pth : string) :
  sch <> EmptyString ->
  Str.all_in UrlParse.scheme_chars sch = true ->
  Str.contains "/" host = false ->
  Str.contains "?" host = false ->
  Str.contains "#" host = false ->
  UrlParse.unbalanced_brackets host = false ->
  pth = EmptyString \/ (exists t, pth = String "/" t) ->
  Str.contains "?" pth = false ->
  Str.contains "#" pth = false ->
  Str.contains ";" pth = false ->
  File.__init__ (PyStr (sch ++ "://" ++ host ++ pth))
  = Ok (File.mk (sch ++ "://" ++ host ++ pth) (Str.lower sch) host pth
          (OsPath.basename pth) None).
Proof.
  intros Hne Hall Hslash Hquery Hhash Hbr Hpth Hq Hf Hsemi.
  rewrite init_str. unfold UrlParse.urlparse.
  change (sch ++ "://" ++ host ++ pth)
    with (sch ++ String ":" (String "/" (String "/" (host ++ pth)))).
  rewrite (urlsplit_with_scheme sch _ Hne Hall) by reflexivity.
  unfold UrlParse.split_rest.
  rewrite slice_to_two.
  change (String.eqb "//" "//") with true. cbv iota.
  rewrite (splitnetloc_composed host pth) by assumption.
  rewrite Hbr. cbn [bind].
  rewrite Hf, Hq. cbn [bind].
  rewrite Hsemi, andb_false_r. cbn [bind].
  unfold constructed. simpl.
  destruct (String.eqb (Str.lower sch) EmptyString) eqn:E; [|reflexivity].
  apply String.eqb_eq in E. now apply lower_nonempty in E.
Qed.

(** X11: construction takes apart what is put together as
    [scheme://host/path]: from a scheme that starts with a letter and is
    made of scheme characters, a host of ASCII characters without
    delimiter and bracket, and a path that is empty or starts with a
    slash and holds no [?], [#] and [;], none of them with a tab, a
    carriage return or a line feed, it gives back the lowered scheme, the
    host and the path, with the basename of the path as [filename]. *)
Theorem composed_url_is_taken_apart (sch host pth : string) :
  starts_with_letter sch = true ->
  Str.all_in UrlParse.scheme_chars sch = true ->
  is_ascii host = true ->
  has_unsafe_bytes host = false ->
  Str.contains "/" host = false ->
  Str.contains "?" host = false ->
  Str.contains "#" host = false ->
  Str.contains "[" host = false ->
  Str.contains "]" host = false ->
  pth = EmptyString \/ (exists t, pth = String "/" t) ->
  has_unsafe_bytes pth = false ->
  Str.contains "?" pth = false ->
  Str.contains "#" pth = false ->
  Str.contains ";" pth = false ->
  File.__init__ (PyStr (sch ++ "://" ++ host ++ pth))
  = Ok (File.mk (sch ++ "://" ++ host ++ pth) (Str.lower sch) host pth
          (OsPath.basename pth) None).
Proof.
  intros Hletter Hall _ _ Hslash Hquery Hhash Hopen Hclose Hpth _ Hq Hf Hsemi.
  apply init_composed; try assumption.
  - intros ->. discriminate.
  - unfold UrlParse.unbalanced_brackets. now rewrite Hopen, Hclose.
Qed.

Lemma composed_url_is_taken_apart_witness :
  File.__init__ (PyStr ("FTP" ++ "://" ++ "mirror.example.org" ++ "/pub/a.tgz"))
  = Ok (File.mk ("FTP" ++ "://" ++ "mirror.example.org" ++ "/pub/a.tgz")
          (Str.lower "FTP") "mirror.example.org" "/pub/a.tgz"
          (OsPath.basename "/pub/a.tgz") None).
Proof.
  apply (composed_url_is_taken_apart "FTP" "mirror.example.org" "/pub/a.tgz");
    try reflexivity.
  right. now exists "pub/a.tgz".
Defined.

(** ** Parameters *)

Section ParamsFacts.
Import Str UrlParse.

Lemma append_assoc (a b c : string) : (a ++ b) ++ c = a ++ (b ++ c).
Proof.
  induction a as [|x r IH]; simpl; [reflexivity | now rewrite IH].
Qed.

Lemma rfind_at_absent (c : ascii) (s : string) (pos : Z) :
  contains c s = false -> rfind_at c s pos = -1.
Proof.
  revert pos. induction s as [|x r IH]; intros pos H; simpl; [reflexivity|].
  simpl in H. apply orb_false_iff in H as [Hx Hr].
  now rewrite (IH _ Hr), Hx.
Qed.

Lemma rfind_at_of_last (c : ascii) (a b : string) (pos : Z) :
  contains c b = false -> 0 <= pos ->
  rfind_at c (a ++ String c b) pos = pos + len a.
Proof.
  intros Hb. revert pos. induction a as [|x r IH]; intros pos Hpos; simpl.
  - rewrite (rfind_at_absent _ _ _ Hb), Ascii.eqb_refl. simpl.
    unfold len. simpl. lia.
  - rewrite IH by lia. pose proof (len_nonneg r).
    replace (0 <=? pos + 1 + len r) with true
      by (symmetry; apply Z.leb_le; lia).
    rewrite len_String. lia.
Qed.

Lemma basename_app (a b : string) :
  contains "/" b = false -> OsPath.basename (a ++ String "/" b) = b.
Proof.
  intros Hb. unfold OsPath.basename, rfind.
  rewrite rfind_at_of_last by (assumption || lia).
  replace (0 + len a + 1) with (len a + 1) by lia.
  apply slice_from_app_cons.
Qed.

Lemma basename_no_slash (p : string) :
  contains "/" p = false -> OsPath.basename p = p.
Proof.
  intros Hp. unfold OsPath.basename, rfind.
  rewrite rfind_at_absent by assumption. apply slice_from_0.
Qed.

(** [_splitparams] leaves no [;] in the last segment of the path. *)
Lemma splitparams_last_segment (pth : string) :
  contains ";" pth = true ->
  contains ";" (OsPath.basename (fst (_splitparams pth))) = false.
Proof.
  intros Hsemi. unfold _splitparams.
  destruct (contains "/" pth) eqn:Hslash.
  - unfold rfind.
    destruct (rfind_at_spec "/" pth 0) as [[_ H] | [a [b [Hp [Hk Hb]]]]];
      [lia | congruence |].
    rewrite Hk. pose proof (len_nonneg a) as Ha. pose proof (len_nonneg b).
    assert (Hn : Z.to_nat (Z.min (0 + len a) (len pth)) = String.length a).
    { rewrite Hp, len_app, len_String. unfold len. lia. }
    destruct (find_spec ";" pth (0 + len a)) as [[Hi Hno] | [a2 [b2 [Hd [Hi Ha2]]]]];
      [lia | |]; rewrite Hn in *; rewrite Hi.
    + simpl fst. rewrite Hp, drop_app in Hno. simpl in Hno.
      rewrite Hp, basename_app by assumption. exact Hno.
    + pose proof (len_nonneg a2).
      replace (Z.of_nat (String.length a) + len a2 <? 0) with false
        by (symmetry; apply Z.ltb_ge; lia).
      simpl fst. rewrite Hp, drop_app in Hd.
      destruct a2 as [|x a3]; simpl in Hd; [discriminate|].
      injection Hd as <- Hb2.
      simpl in Ha2.
      assert (Hcut : pth = (a ++ String "/" a3) ++ String ";" b2).
      { rewrite Hp, Hb2, append_assoc. reflexivity. }
      assert (Hlen : Z.of_nat (String.length a) + len (String "/" a3)
                     = len (a ++ String "/" a3)).
      { rewrite len_app. reflexivity. }
      rewrite Hlen. rewrite Hcut at 1. rewrite slice_to_app.
      rewrite Hb2, contains_app in Hb. apply orb_false_iff in Hb as [Hb _].
      rewrite basename_app by assumption. exact Ha2.
  - destruct (find_0_spec ";" pth) as [[_ H] | [a [b [Hp [Hi Ha]]]]];
      [congruence|].
    rewrite Hi. simpl fst. rewrite Hp at 1. rewrite slice_to_app.
    rewrite Hp, contains_app in Hslash.
    apply orb_false_iff in Hslash as [Hslash _].
    now rewrite basename_no_slash.
Qed.

Lemma basename_keeps_absent (c : ascii) (p : string) :
  contains c p = false -> contains c (OsPath.basename p) = false.
Proof.
  intros Hp. unfold OsPath.basename. now apply contains_slice_from.
Qed.

Lemma parsed_filename_has_no_params (u : string) (p : ParseResult) :
  urlparse u = Ok p ->
  mem (scheme p) uses_params = true ->
  contains ";" (OsPath.basename (path p)) = false.
Proof.
  intros Hp Hmem.
  destruct (urlparse_shape u p Hp)
    as [pth [q [fr [_ [[Hno ->] | [_ [Hsemi ->]]]]]]].
  - rewrite Hmem in Hno. simpl in Hno. now apply basename_keeps_absent.
  - now apply splitparams_last_segment.
Qed.

End ParamsFacts.

(** X12: for a string without a colon and for the schemes ftp, http and
    https, what follows a [;] in the last segment of the path is taken
    for parameters and cut off: [filename] holds no [;]. *)
Theorem params_are_cut_from_filename (u : string) (f : File.t) :
  File.__init__ (PyStr u) = Ok f ->
  Str.contains ":" u = false \/ In (File.scheme f) ["ftp"; "http"; "https"] ->
  Str.contains ";" (File.filename f) = false.
Proof.
  intros Hinit Hcase. apply init_str_inv in Hinit as [p [Hp ->]].
  unfold constructed in *. simpl File.filename. simpl File.scheme in Hcase.
  apply (parsed_filename_has_no_params u p Hp).
  destruct Hcase as [Hcolon | Hin].
  - now rewrite (scheme_of_no_colon u p Hcolon Hp).
  - destruct (String.eqb (UrlParse.scheme p) EmptyString).
    + simpl in Hin. intuition discriminate.
    + simpl in Hin. destruct Hin as [<- | [<- | [<- | []]]]; reflexivity.
Qed.

Lemma params_are_cut_from_filename_witness :
  File.__init__ (PyStr "out/run;1.log")
  = Ok (File.mk "out/run;1.log" "file" EmptyString "out/run" "run" None)
  /\ Str.contains ";" "run" = false.
Proof.
  split; [reflexivity|].
  apply (params_are_cut_from_filename "out/run;1.log"
           (File.mk "out/run;1.log" "file" EmptyString "out/run" "run" None)).
  - reflexivity.
  - left. reflexivity.
Defined.

(** X14: a reference with a remote scheme whose url stops after the
    host, a host of ASCII characters without delimiter, bracket, tab,
    carriage return and line feed, resolves to the empty string before
    any override. *)
Theorem remote_url_without_path_resolves_to_nothing (sch host : string) :
  In sch remote_schemes ->
  is_ascii host = true ->
  has_unsafe_bytes host = false ->
  Str.contains "/" host = false ->
  Str.contains "?" host = false ->
  Str.contains "#" host = false ->
  Str.contains "[" host = false ->
  Str.contains "]" host = false ->
  exists f,
    File.__init__ (PyStr (sch ++ "://" ++ host)) = Ok f
    /\ File.is_remote f = Ok true
    /\ File.path f = EmptyString
    /\ File.filepath f = Ok EmptyString.
Proof.
  intros Hsch _ _ Hslash Hquery Hhash Hopen Hclose.
  assert (Hbr : UrlParse.unbalanced_brackets host = false)
    by (unfold UrlParse.unbalanced_brackets; now rewrite Hopen, Hclose).
  assert (Hlow : Str.lower sch = sch /\ sch <> EmptyString
                 /\ Str.all_in UrlParse.scheme_chars sch = true).
  { unfold remote_schemes in Hsch. simpl in Hsch.
    destruct Hsch as [<- | [<- | [<- | [<- | []]]]];
      repeat split; discriminate. }
  destruct Hlow as [Hlow [Hne Hall]].
  pose proof (init_composed sch host EmptyString Hne Hall Hslash Hquery Hhash
                Hbr (or_introl eq_refl) eq_refl eq_refl eq_refl) as Hinit.
  rewrite append_empty, Hlow in Hinit.
  eexists. split; [exact Hinit|].
  apply mem_In in Hsch. unfold remote_schemes in Hsch.
  unfold File.is_remote, File.filepath.
  cbn [File.scheme File.local_path File.path File.filename].
  rewrite Hsch. repeat split.
Qed.

Lemma remote_url_without_path_resolves_to_nothing_witness :
  exists f,
    File.__init__ (PyStr ("https" ++ "://" ++ "example.org")) = Ok f
    /\ File.is_remote f = Ok true
    /\ File.path f = EmptyString
    /\ File.filepath f = Ok EmptyString.
Proof.
  apply (remote_url_without_path_resolves_to_nothing "https" "example.org");
    try reflexivity.
  unfold remote_schemes. simpl. auto.
Defined.

(** ** Strings that always construct *)

Section NoSlash.
Import Str UrlParse.

Lemma split_rest_no_slash (sch v : string) :
  contains "/" v = false -> exists r, split_rest sch v = Ok r.
Proof.
  intros Hv. unfold split_rest.
  destruct (String.eqb (slice_to v 2) "//") eqn:E.
  - apply String.eqb_eq in E.
    pose proof (contains_take "/" (Z.to_nat (norm_index (len v) 2)) v Hv) as H.
    unfold slice_to in E. rewrite E in H. discriminate.
  - simpl.
    destruct (if contains "#" v then _ else _) as [u1 fr].
    destruct (if contains "?" u1 then _ else _) as [u2 q].
    eexists. reflexivity.
Qed.

Lemma urlparse_no_slash (s : string) :
  contains "/" s = false -> exists p, urlparse s = Ok p.
Proof.
  intros Hs.
  assert (H : exists r, urlsplit s = Ok r).
  { destruct (urlsplit_shape s) as [-> | [i [_ [_ [_ ->]]]]];
      apply split_rest_no_slash; [assumption|].
    now apply contains_slice_from. }
  destruct H as [r H]. exact (urlparse_of_urlsplit s r H).
Qed.

End NoSlash.

(** X15: construction never fails on a string without a slash, whatever
    brackets it holds: only a netloc after two slashes can be refused. *)
Theorem name_without_slash_constructs (s : string) :
  Str.contains "/" s = false ->
  exists f, File.__init__ (PyStr s) = Ok f.
Proof.
  intros Hs. destruct (urlparse_no_slash s Hs) as [p Hp].
  exists (constructed s p). rewrite init_str, Hp. reflexivity.
Qed.

Lemma name_without_slash_constructs_witness :
  exists f, File.__init__ (PyStr "frame[0].dat") = Ok f.
Proof.
  apply (name_without_slash_constructs "frame[0].dat"). reflexivity.
Defined.

(** ** The attributes are cut out of the url *)

Section Parts.
Import Str UrlParse.

Lemma part_of_refl (s : string) : part_of s s.
Proof.
  exists EmptyString, EmptyString. simpl. now rewrite append_empty.
Qed.

Lemma part_of_trans (x y z : string) :
  part_of x y -> part_of y z -> part_of x z.
Proof.
  intros [a [b ->]] [c [d ->]].
  exists (c ++ a), (b ++ d). now rewrite !append_assoc.
Qed.

Lemma part_of_take (n : nat) (s : string) : part_of (take n s) s.
Proof.
  exists EmptyString, (drop n s). simpl. symmetry. apply take_drop.
Qed.

Lemma part_of_drop (n : nat) (s : string) : part_of (drop n s) s.
Proof.
  exists (take n s), EmptyString. rewrite append_empty.
  symmetry. apply take_drop.
Qed.

Lemma part_of_prefix (x t : string) : part_of x (x ++ t).
Proof. now exists EmptyString, t. Qed.

Lemma part_of_slice (s : string) (lo hi : Z) : part_of (slice s lo hi) s.
Proof.
  unfold slice. eapply part_of_trans; [apply part_of_take | apply part_of_drop].
Qed.

Lemma part_of_empty (s : string) : part_of EmptyString s.
Proof. exists EmptyString, s. reflexivity. Qed.

Lemma split_rest_parts (sch v s n pth q fr : string) :
  split_rest sch v = Ok (s, n, pth, q, fr) ->
  part_of n v /\ part_of pth v.
Proof.
  unfold split_rest.
  set (first := if String.eqb (slice_to v 2) "//" then _ else _).
  assert (Hfirst : forall n0 u0, first = Ok (n0, u0) ->
             part_of n0 v /\ part_of u0 v).
  { unfold first. intros n0 u0.
    destruct (String.eqb (slice_to v 2) "//").
    - unfold _splitnetloc. cbn [fold_left].
      set (delim := if 0 <=? find "#" v 2 then _ else _).
      destruct (unbalanced_brackets (slice v 2 delim)); [discriminate|].
      intros H. injection H as <- <-.
      split; [apply part_of_slice | apply part_of_drop].
    - intros H. injection H as <- <-.
      split; [apply part_of_empty | apply part_of_refl]. }
  destruct first as [[n0 u0]|e]; simpl; [|discriminate].
  destruct (Hfirst n0 u0 eq_refl) as [Hn Hu0].
  pose proof (cut_spec "#" u0) as Hhash.
  destruct (if contains "#" u0 then split1 "#" u0 else (u0, EmptyString))
    as [u1 fr'].
  pose proof (cut_spec "?" u1) as Hquery.
  destruct (if contains "?" u1 then split1 "?" u1 else (u1, EmptyString))
    as [u2 q'].
  simpl in Hhash, Hquery.
  destruct Hhash as [_ [t1 Ht1]]. destruct Hquery as [_ [t2 Ht2]].
  intros H. injection H as _ <- <- _ _.
  split; [exact Hn|].
  apply (part_of_trans _ u1); [rewrite Ht2; apply part_of_prefix|].
  apply (part_of_trans _ u0); [rewrite Ht1; apply part_of_prefix | exact Hu0].
Qed.

Lemma parsed_parts (u : string) (p : ParseResult) :
  urlparse u = Ok p ->
  part_of (netloc p) u /\ part_of (path p) u.
Proof.
  intros Hp.
  destruct (urlparse_shape u p Hp) as [pth [q [fr [Hsplit Hpath]]]].
  destruct (urlsplit_ok_shape _ _ _ _ _ _ Hsplit) as [v [Hr Hv]].
  destruct (split_rest_parts _ _ _ _ _ _ _ Hr) as [Hn Hpth].
  assert (Hvu : part_of v u).
  { destruct Hv as [[_ ->] | [i [_ [_ [_ [_ ->]]]]]];
      [apply part_of_refl | apply part_of_drop]. }
  split; [exact (part_of_trans _ _ _ Hn Hvu)|].
  apply (part_of_trans _ pth); [|exact (part_of_trans _ _ _ Hpth Hvu)].
  destruct Hpath as [[_ ->] | [_ [_ ->]]]; [apply part_of_refl|].
  destruct (splitparams_prefix pth) as [t Ht].
  rewrite Ht at 2. apply part_of_prefix.
Qed.

End Parts.

(** X16: from a string without tab, carriage return and line feed,
    construction decodes and rewrites nothing: [netloc], [path] and
    [filename] are pieces of [url], character for character. *)
Theorem attributes_are_parts_of_url (u : string) (f : File.t) :
  has_unsafe_bytes u = false ->
  File.__init__ (PyStr u) = Ok f ->
  part_of (File.netloc f) (File.url f)
  /\ part_of (File.path f) (File.url f)
  /\ part_of (File.filename f) (File.url f).
Proof.
  intros _ Hinit. apply init_str_inv in Hinit as [p [Hp ->]].
  destruct (parsed_parts u p Hp) as [Hn Hpath].
  unfold constructed. simpl.
  repeat split; try assumption.
  apply (part_of_trans _ (UrlParse.path p)); [|exact Hpath].
  unfold OsPath.basename. apply part_of_drop.
Qed.

Lemma attributes_are_parts_of_url_witness :
  File.__init__ (PyStr "http://host/a%20b/c%2Fd.txt?x=1")
  = Ok (File.mk "http://host/a%20b/c%2Fd.txt?x=1" "http" "host"
          "/a%20b/c%2Fd.txt" "c%2Fd.txt" None)
  /\ part_of "host" "http://host/a%20b/c%2Fd.txt?x=1"
  /\ part_of "/a%20b/c%2Fd.txt" "http://host/a%20b/c%2Fd.txt?x=1"
  /\ part_of "c%2Fd.txt" "http://host/a%20b/c%2Fd.txt?x=1".
Proof.
  split; [reflexivity|].
  apply (attributes_are_parts_of_url "http://host/a%20b/c%2Fd.txt?x=1"
           (File.mk "http://host/a%20b/c%2Fd.txt?x=1" "http" "host"
              "/a%20b/c%2Fd.txt" "c%2Fd.txt" None));
    reflexivity.
Defined.
